(** * Compliance policy generator: a shallow embedding of [main.py]

    The program is one linear pipeline: load a YAML configuration, check
    that it is a mapping, load a Jinja2 template chosen by platform and
    compliance standard, render it and write the result.  The embedding
    threads an explicit world (file system, log records, a ghost record of
    the methods entered) and the generator object through a small
    state-and-exception monad, so that every [try]/[except]/[raise] of the
    source has a counterpart here. *)

From Stdlib Require Import ZArith String Ascii List Lia.
From stdpp Require Import gmap strings list fin_maps pretty.

Local Open Scope string_scope.
Local Open Scope list_scope.
Set Warnings "-register-all".

(** ** Values built by [yaml.safe_load]

    The scalars of the safe schema ([None], [bool], [int], [float] and
    timestamps by their printed form, [str], [bytes]), and its collections:
    [list], the [tuple]s inside an ordered map, [set] and [dict], a dict
    by its entries in insertion order. *)

Inductive pyval : Type :=
| PyNone
| PyBool (b : bool)
| PyInt (n : Z)
| PyFloat (repr : string)
| PyStr (s : string)
| PyBytes (b : string)
| PyDate (repr : string)
| PyList (items : list pyval)
| PyTuple (items : list pyval)
| PySet (items : list pyval)
| PyDict (items : list (pyval * pyval)).

(** [isinstance(v, dict)] *)
Definition isinstance_dict (v : pyval) : bool :=
  match v with
  | PyDict _ => true
  | _ => false
  end.

(** [name == k] for a [str] literal [name]: only a [str] key can equal it. *)
Definition key_is (name : string) (k : pyval) : bool :=
  match k with
  | PyStr s => String.eqb name s
  | _ => false
  end.

(** [name in v] for a dict [v]. *)
Definition dict_contains (name : string) (v : pyval) : bool :=
  match v with
  | PyDict kvs => existsb (fun kv => key_is name (fst kv)) kvs
  | _ => false
  end.

(** ** Exceptions *)

(** The operating-system errors carry the path given to [open]; the two
    codec errors carry what could not be converted (the bytes read, the
    text to be written); the errors of the libraries carry the text of
    their diagnostic. *)
Inductive exn : Type :=
| FileNotFoundError (path : string)
| PermissionError (path : string)
| IsADirectoryError (path : string)
| NotADirectoryError (path : string)
| UnicodeDecodeError (raw : string)
| YAMLError (diag : string)
| ValueError (msg : string)
| AttributeError (msg : string)
| TemplateNotFound (name : string)
| TemplateSyntaxError (diag : string)
| TemplateRuntimeError (diag : string)
| UnicodeEncodeError (text : string)
| SystemExit (code : Z).

(** [isinstance(e, Exception)]: [SystemExit] derives from [BaseException]
    only. *)
Definition is_Exception (e : exn) : bool :=
  match e with
  | SystemExit _ => false
  | _ => true
  end.

(** [str(e)], as it is interpolated into the log messages.  The program's
    own [ValueError] prints its message, and so do the exceptions that
    carry a diagnostic.  The texts that Python, the operating system and
    Jinja2 give to the exceptions they raise themselves vary with their
    version and the locale: [library_str] stands for them. *)
Definition str_exn (library_str : exn -> string) (e : exn) : string :=
  match e with
  | YAMLError d => d
  | ValueError m => m
  | AttributeError m => m
  | TemplateSyntaxError d => d
  | TemplateRuntimeError d => d
  | SystemExit c => pretty c
  | _ => library_str e
  end.

(** ** The file system seen through [open] *)

(** A regular file is text, or bytes that are no text in the encoding it
    is read with: the encoding of the locale for the configuration, UTF-8
    for a template.  One file is taken to be text in both or in neither. *)
Inductive entry : Type :=
| RegularFile (content : string) (may_read may_write : bool)
| BinaryFile (raw : string) (may_read may_write : bool)
| Directory.

(** What stands in the way of a path at which nothing exists. *)
Inductive parent_dir : Type :=
| ParentWritable
| ParentReadOnly
| ParentMissing
| ParentNotDirectory
| ParentForbidden.

(** A path that does not start at the root. *)
Definition relative (p : string) : bool :=
  negb (String.prefix "/" p) && negb (String.eqb p "").

(** [locate] gives the file a path names once the operating system has
    resolved it (the current directory, [.] and [..], repeated slashes,
    links): two paths name one file exactly when [locate] agrees on them.
    [entries] tells what each file is; [parent_of] tells what a path at
    which nothing exists meets.  [locate_here] is the one law of path
    resolution the program relies on: a relative path names the same file
    with [./] before it.  Device errors are outside the model: the device
    is taken to have room for what is written, so that a write to a file
    that has been opened fails only when the text cannot be encoded. *)
Record filesystem : Type := {
  entries : gmap string entry;
  locate : string -> string;
  parent_of : string -> parent_dir;
  locate_here : forall p, relative p = true -> locate ("./" +:+ p) = locate p
}.

Definition set_entry (k : string) (e : entry) (fs : filesystem) : filesystem :=
  {| entries := <[k := e]> (entries fs);
     locate := locate fs;
     parent_of := parent_of fs;
     locate_here := locate_here fs |}.

(** What is at the file a path names. *)
Definition file_at (p : string) (fs : filesystem) : option entry :=
  entries fs !! locate fs p.

(** [open(p, 'r')] followed by reading the whole stream. *)
Definition os_read (p : string) (fs : filesystem) : exn + string :=
  match file_at p fs with
  | Some (RegularFile c r _) => if r then inr c else inl (PermissionError p)
  | Some (BinaryFile raw r _) =>
      if r then inl (UnicodeDecodeError raw) else inl (PermissionError p)
  | Some Directory => inl (IsADirectoryError p)
  | None =>
      match parent_of fs p with
      | ParentNotDirectory => inl (NotADirectoryError p)
      | ParentForbidden => inl (PermissionError p)
      | _ => inl (FileNotFoundError p)
      end
  end.

(** [open(p, 'w')]: creates the file or truncates it. *)
Definition os_open_w (p : string) (fs : filesystem) : exn + filesystem :=
  match file_at p fs with
  | Some Directory => inl (IsADirectoryError p)
  | Some (RegularFile _ r w) | Some (BinaryFile _ r w) =>
      if w then inr (set_entry (locate fs p) (RegularFile "" r w) fs)
      else inl (PermissionError p)
  | None =>
      match parent_of fs p with
      | ParentWritable =>
          inr (set_entry (locate fs p) (RegularFile "" true true) fs)
      | ParentReadOnly => inl (PermissionError p)
      | ParentForbidden => inl (PermissionError p)
      | ParentMissing => inl (FileNotFoundError p)
      | ParentNotDirectory => inl (NotADirectoryError p)
      end
  end.

(** [f.write(text)] and the close of the [with] block, on a file that
    [os_open_w] has just opened. *)
Definition os_write (p : string) (text : string) (fs : filesystem)
  : exn + filesystem :=
  match file_at p fs with
  | Some (RegularFile _ r w) =>
      inr (set_entry (locate fs p) (RegularFile text r w) fs)
  | _ => inl (FileNotFoundError p)
  end.

(** The text a reader with the process's rights gets from [p], if any. *)
Definition readable_as (p : string) (fs : filesystem) : option string :=
  match os_read p fs with
  | inr text => Some text
  | inl _ => None
  end.

(** [open(p, 'w')] would succeed. *)
Definition writable (p : string) (fs : filesystem) : bool :=
  match os_open_w p fs with
  | inr _ => true
  | inl _ => false
  end.

(** What a later reader finds at [p], whatever the permissions. *)
Definition file_content (p : string) (fs : filesystem) : option string :=
  match file_at p fs with
  | Some (RegularFile c _ _) => Some c
  | _ => None
  end.

(** [os.path.isfile(p)] *)
Definition isfile (p : string) (fs : filesystem) : bool :=
  match file_at p fs with
  | Some (RegularFile _ _ _) => true
  | Some (BinaryFile _ _ _) => true
  | _ => false
  end.

(** ** Logging *)

Inductive level : Type := INFO | WARNING | ERROR.

Definition log_record : Type := level * string.

(** ** Ghost record of the pipeline methods entered and left *)

Inductive stage : Type :=
| LoadConfig
| ValidateConfig
| LoadTemplate
| GenerateScript.

Inductive event : Type :=
| Entered (st : stage)
| Returned (st : stage)
| Raised (st : stage).

Record world : Type := {
  fs : filesystem;
  log : list log_record;
  events : list event
}.

(** The events recorded between [w] and a later world [w']. *)
Definition since (w w' : world) : list event :=
  drop (length (events w)) (events w').

(** The world a process starts in. *)
Definition boot (f : filesystem) : world :=
  {| fs := f; log := []; events := [] |}.

(** [c in s] for a character [c]. *)
Fixpoint contains_char (c : ascii) (s : string) : bool :=
  match s with
  | EmptyString => false
  | String a rest => Ascii.eqb a c || contains_char c rest
  end.

Definition slash : ascii := ascii_of_nat 47.

(** The message of the warning in [validate_config]. *)
Definition missing_policies_warning : string :=
  "No 'policies' key found in the configuration.  Some rules may be missed".

(** [template_path] of [load_template]. *)
Definition template_path (platform compliance_standard : string) : string :=
  "templates/" +:+ platform +:+ "/" +:+ compliance_standard +:+ ".j2".

(** ** The file the template loader opens

    [FileSystemLoader('.')] cuts the template name at its slashes, refuses
    a name with a [..] piece, drops the empty pieces and the [.] pieces
    and joins what is left below its search path [.]. *)

(** [s.split(sep)] *)
Fixpoint split_at (sep : ascii) (cur : string) (s : string) : list string :=
  match s with
  | EmptyString => [String.rev cur]
  | String a rest =>
      if Ascii.eqb a sep then String.rev cur :: split_at sep "" rest
      else split_at sep (String a cur) rest
  end.

(** [sep.join(pieces)] *)
Fixpoint join_with (sep : string) (pieces : list string) : string :=
  match pieces with
  | [] => ""
  | [x] => x
  | x :: rest => x +:+ sep +:+ join_with sep rest
  end.

(** [split_template_path(name)]; [None] when it raises [TemplateNotFound]. *)
Definition split_template_path (name : string) : option (list string) :=
  let pieces := split_at slash "" name in
  if existsb (String.eqb "..") pieces then None
  else Some (filter (fun piece => negb (String.eqb piece "") &&
                                  negb (String.eqb piece ".") = true) pieces).

(** [posixpath.join('.', *pieces)] for pieces that are not empty and hold
    no slash. *)
Definition join_below_here (pieces : list string) : string :=
  match pieces with
  | [] => "."
  | _ => "./" +:+ join_with "/" pieces
  end.

(** The file name the loader looks for, when it accepts the name. *)
Definition template_file (name : string) : option string :=
  match split_template_path name with
  | None => None
  | Some pieces => Some (join_below_here pieces)
  end.

(** The loader finds a regular file for the name. *)
Definition loader_finds (name : string) (fs : filesystem) : bool :=
  match template_file name with
  | None => false
  | Some filename => isfile filename fs
  end.

(** The source the loader reads for the name, if it reads one. *)
Definition loader_reads (name : string) (fs : filesystem) : option string :=
  match template_file name with
  | None => None
  | Some filename => if isfile filename fs then readable_as filename fs else None
  end.

(** ** The pipeline, over an arbitrary YAML parser and template engine

    [yaml.safe_load] and the Jinja2 engine are libraries, not code of this
    program.  The variables below describe them for one process, that is
    for one run of the program.  [safe_load] answers with the parsed value
    or the parser's diagnostic, [compile] turns a template source into a
    template or reports a syntax error.  [render] is what the one render
    call of the process answers for a template and the value bound to
    [config]: the text, or the evaluator's error.  It belongs to the
    process: the engine's random filter, the order in which the process
    walks a set and the files the loader reaches for an include all enter
    it, so two processes need not share it.  [encodable] tells whether the
    encoding of the process's locale, which [open] uses for a text stream,
    can represent a text.  [library_str] is [str(e)] for the exceptions
    that Python, the operating system and Jinja2 raise. *)

Module CompliancePolicyGenerator.

Section Pipeline.

Variable template : Type.
Variable safe_load : string -> string + pyval.
Variable compile : string -> string + template.
Variable render : template -> pyval -> string + string.
Variable encodable : string -> bool.
Variable library_str : exn -> string.

(** The object built by [__init__]. *)
Record generator : Type := {
  compliance_standard : string;
  config_file : string;
  output_file : string;
  platform : string;
  config : pyval;
  loaded : option template
}.

Definition init (standard cfg out plat : string) : generator :=
  {| compliance_standard := standard;
     config_file := cfg;
     output_file := out;
     platform := plat;
     config := PyNone;
     loaded := None |}.

(** *** State and exceptions *)

Definition state : Type := world * generator.

Definition M (A : Type) : Type := state -> (exn + A) * state.

Definition ret {A} (a : A) : M A := fun s => (inr a, s).

Definition raise {A} (e : exn) : M A := fun s => (inl e, s).

Definition bind {A B} (m : M A) (k : A -> M B) : M B :=
  fun s =>
    match m s with
    | (inr a, s') => k a s'
    | (inl e, s') => (inl e, s')
    end.

(** [try: body except ... as e: handler e] *)
Definition try_except {A} (body : M A) (handler : exn -> M A) : M A :=
  fun s =>
    match body s with
    | (inl e, s') => handler e s'
    | r => r
    end.

Notation "x <- m ;; k" := (bind m (fun x => k))
  (at level 100, m at next level, right associativity).
Notation "m ;;; k" := (bind m (fun _ => k))
  (at level 100, right associativity).

Definition self : M generator := fun s => (inr (snd s), s).

Definition logging (l : level) (msg : string) : M unit :=
  fun s =>
    (inr tt,
     ({| fs := fs (fst s); log := log (fst s) ++ [(l, msg)]; events := events (fst s) |},
      snd s)).

Definition record (ev : event) (s : state) : state :=
  ({| fs := fs (fst s); log := log (fst s); events := events (fst s) ++ [ev] |},
   snd s).

(** A method of the generator: the body, with its entry and the way it is
    left recorded.  The record is ghost state; it changes nothing the
    program can observe. *)
Definition method {A} (st : stage) (body : M A) : M A :=
  fun s =>
    match body (record (Entered st) s) with
    | (inr a, s') => (inr a, record (Returned st) s')
    | (inl e, s') => (inl e, record (Raised st) s')
    end.

(** [self.config = v] *)
Definition with_config (v : pyval) (g : generator) : generator :=
  {| compliance_standard := compliance_standard g;
     config_file := config_file g;
     output_file := output_file g;
     platform := platform g;
     config := v;
     loaded := loaded g |}.

(** [self.template = t] *)
Definition with_template (t : template) (g : generator) : generator :=
  {| compliance_standard := compliance_standard g;
     config_file := config_file g;
     output_file := output_file g;
     platform := platform g;
     config := config g;
     loaded := Some t |}.

Definition set_config (v : pyval) : M unit :=
  fun s => (inr tt, (fst s, with_config v (snd s))).

Definition set_template (t : template) : M unit :=
  fun s => (inr tt, (fst s, with_template t (snd s))).

Definition set_fs (f : filesystem) : M unit :=
  fun s =>
    (inr tt,
     ({| fs := f; log := log (fst s); events := events (fst s) |}, snd s)).

Definition open_read (p : string) : M string :=
  fun s =>
    match os_read p (fs (fst s)) with
    | inl e => (inl e, s)
    | inr text => (inr text, s)
    end.

Definition open_write (p : string) : M unit :=
  fun s =>
    match os_open_w p (fs (fst s)) with
    | inl e => (inl e, s)
    | inr f => set_fs f s
    end.

(** [f.write(text)]: the stream encodes the whole text before it stores
    any of it. *)
Definition write (p : string) (text : string) : M unit :=
  fun s =>
    if encodable text then
      match os_write p text (fs (fst s)) with
      | inl e => (inl e, s)
      | inr f => set_fs f s
      end
    else (inl (UnicodeEncodeError text), s).

(** [yaml.safe_load(f)] on the stream of an opened file. *)
Definition yaml_safe_load (text : string) : M pyval :=
  match safe_load text with
  | inl diag => raise (YAMLError diag)
  | inr v => ret v
  end.

(** [env.get_template(name)] with [FileSystemLoader('.')]: the loader wants
    a regular file at the file name it makes of [name], opens it, reads
    it and hands the source to the compiler. *)
Definition get_template (name : string) : M template :=
  fun s =>
    match template_file name with
    | None => (inl (TemplateNotFound name), s)
    | Some filename =>
        if isfile filename (fs (fst s)) then
          match os_read filename (fs (fst s)) with
          | inl e => (inl e, s)
          | inr src =>
              match compile src with
              | inl diag => (inl (TemplateSyntaxError diag), s)
              | inr t => (inr t, s)
              end
          end
        else (inl (TemplateNotFound name), s)
    end.

(** [self.template.render(config=self.config)] *)
Definition template_render (g : generator) : M string :=
  match loaded g with
  | None => raise (AttributeError "'NoneType' object has no attribute 'render'")
  | Some t =>
      match render t (config g) with
      | inl diag => raise (TemplateRuntimeError diag)
      | inr text => ret text
      end
  end.

(** *** The four stages *)

Definition load_config : M unit :=
  method LoadConfig (
  try_except
    (g <- self ;;
     text <- open_read (config_file g) ;;
     v <- yaml_safe_load text ;;
     set_config v ;;;
     logging INFO ("Configuration loaded from " +:+ config_file g))
    (fun e =>
       match e with
       | FileNotFoundError _ =>
           g <- self ;;
           logging ERROR ("Configuration file not found: " +:+ config_file g) ;;;
           raise e
       | YAMLError _ =>
           logging ERROR ("Error parsing YAML configuration: " +:+
                          str_exn library_str e) ;;;
           raise e
       | _ => raise e
       end)).

Definition validate_config : M unit :=
  method ValidateConfig (
  g <- self ;;
  (if negb (isinstance_dict (config g)) then
     logging ERROR "Invalid configuration format. Expected a dictionary." ;;;
     raise (ValueError "Invalid configuration format")
   else ret tt) ;;;
  if negb (dict_contains "policies" (config g)) then
    logging WARNING missing_policies_warning
  else ret tt).

Definition load_template : M unit :=
  method LoadTemplate (
  g <- self ;;
  let path := template_path (platform g) (compliance_standard g) in
  try_except
    (t <- get_template path ;;
     set_template t ;;;
     logging INFO ("Template loaded from " +:+ path))
    (fun e =>
       match e with
       | TemplateNotFound _ =>
           logging ERROR ("Template not found: " +:+ path) ;;;
           raise e
       | _ =>
           if is_Exception e then
             logging ERROR ("Error loading template: " +:+ str_exn library_str e) ;;;
             raise e
           else raise e
       end)).

Definition generate_script : M unit :=
  method GenerateScript (
  try_except
    (g <- self ;;
     rendered_script <- template_render g ;;
     open_write (output_file g) ;;;
     write (output_file g) rendered_script ;;;
     logging INFO ("Script generated successfully: " +:+ output_file g))
    (fun e =>
       if is_Exception e then
         logging ERROR ("Error generating script: " +:+ str_exn library_str e) ;;;
         raise e
       else raise e)).

(** *** The orchestrator *)

(** The outcome of the body of [generate_script]: what it raises or that
    it returns, and the file system it leaves. *)
Definition script_outcome (f0 : filesystem) (g : generator)
  : (exn + unit) * filesystem :=
  match loaded g with
  | None =>
      (inl (AttributeError "'NoneType' object has no attribute 'render'"), f0)
  | Some t =>
      match render t (config g) with
      | inl d => (inl (TemplateRuntimeError d), f0)
      | inr text =>
          match os_open_w (output_file g) f0 with
          | inl e => (inl e, f0)
          | inr f =>
              if encodable text then
                match os_write (output_file g) text f with
                | inl e => (inl e, f)
                | inr f' => (inr tt, f')
                end
              else (inl (UnicodeEncodeError text), f)
          end
      end
  end.

(** What the first three stages hand to [generate_script], from the text
    read at the configuration path and the source read at the template
    path: the configuration and the template, when all three return. *)
Definition loaded_inputs (cfg_text tpl_src : option string)
  : option (pyval * template) :=
  match cfg_text with
  | None => None
  | Some text =>
      match safe_load text with
      | inl _ => None
      | inr v =>
          if isinstance_dict v then
            match tpl_src with
            | None => None
            | Some src =>
                match compile src with
                | inl _ => None
                | inr t => Some (v, t)
                end
            end
          else None
      end
  end.

(** The render call of [generate_script] raises on the object [g]. *)
Definition render_raises (g : generator) : bool :=
  match loaded g with
  | None => true
  | Some t =>
      match render t (config g) with
      | inl _ => true
      | inr _ => false
      end
  end.

(** What the handler of [run] does with an exception [e] of a stage. *)
Definition abort (e : exn) (s : state) : (exn + unit) * state :=
  (inl (SystemExit 1),
   ({| fs := fs (fst s);
       log := log (fst s) ++
              [(ERROR, "Script generation failed: " +:+ str_exn library_str e)];
       events := events (fst s) |}, snd s)).

Definition run : M unit :=
  try_except
    (load_config ;;;
     validate_config ;;;
     load_template ;;;
     generate_script)
    (fun e =>
       if is_Exception e then
         logging ERROR ("Script generation failed: " +:+ str_exn library_str e) ;;;
         raise (SystemExit 1)
       else raise e).

(** The exception of the first stage that raises, the stages taken in the
    order in which [run] calls them, each from the state its predecessor
    left. *)
Definition first_exception (s : state) : option exn :=
  match load_config s with
  | (inl e, _) => Some e
  | (inr _, s1) =>
      match validate_config s1 with
      | (inl e, _) => Some e
      | (inr _, s2) =>
          match load_template s2 with
          | (inl e, _) => Some e
          | (inr _, s3) =>
              match generate_script s3 with
              | (inl e, _) => Some e
              | (inr _, _) => None
              end
          end
      end
  end.

(** [main] once the arguments are parsed, and the status the process ends
    with: 0 when [main] returns, the code of a [SystemExit], 1 for any
    exception that reaches the top. *)
Definition main (standard cfg out plat : string) (w : world) : Z * world :=
  let body : M unit :=
    try_except run
      (fun e =>
         if is_Exception e then
           logging ERROR ("An unexpected error occurred: " +:+
                          str_exn library_str e) ;;;
           raise (SystemExit 1)
         else raise e) in
  match body (w, init standard cfg out plat) with
  | (inr _, s) => (0%Z, fst s)
  | (inl (SystemExit c), s) => (c, fst s)
  | (inl _, s) => (1%Z, fst s)
  end.

End Pipeline.

Arguments compliance_standard {template} _.
Arguments config_file {template} _.
Arguments output_file {template} _.
Arguments platform {template} _.
Arguments config {template} _.
Arguments loaded {template} _.
Arguments with_config {template} _ _.
Arguments with_template {template} _ _.
Arguments abort {template} _ _ _.
Arguments render_raises {template} _ _.
Arguments first_exception {template} _ _ _ _ _ _.

End CompliancePolicyGenerator.

Import CompliancePolicyGenerator.

(** The stages in the order of the specification, and the two shapes a
    run's record can take: every stage of a list entered and left
    normally, or the first [n] stages so and stage [n] left by an
    exception. *)
Definition pipeline : list stage :=
  [LoadConfig; ValidateConfig; LoadTemplate; GenerateScript].

Definition completed (sts : list stage) : list event :=
  flat_map (fun st => [Entered st; Returned st]) sts.

Definition failed_at (n : nat) : list event :=
  completed (take n pipeline) ++
  match pipeline !! n with
  | Some st => [Entered st; Raised st]
  | None => []
  end.

(** The world after a method has been entered and left, with the records
    it logged; the file system as given. *)
Definition after (st : stage) (f : filesystem) (logged : list log_record)
    (ok : bool) (w : world) : world :=
  {| fs := f;
     log := log w ++ logged;
     events := (events w ++ [Entered st]) ++ [if ok then Returned st else Raised st] |}.

(** ** A fragment of the template language

    Modelled from the example template in the comment that closes
    [main.py] (lines 148 to 158): literal text, [{{ e }}] output,
    [{% for x in e %}] and [{% if e %}] blocks, over expressions made of
    names and attribute access.  The evaluation rules are those of Jinja2's
    default environment for this fragment.  What the fragment leaves out
    (the [loop] variable, attributes that Python objects have of their
    own, attributes of values that are not mappings, the printed form of
    containers) makes the evaluator answer with an error that says so. *)

Module MiniJinja.

Inductive expr : Type :=
| EVar (name : string)
| EAttr (obj : expr) (attr : string).

Inductive node : Type :=
| NText (text : string)
| NOutput (e : expr)
| NFor (target : string) (iter : expr) (body : list node)
| NIf (test : expr) (body : list node).

Definition template : Type := list node.

(** A value of the evaluator: a Python value or Jinja2's [Undefined]. *)
Inductive jval : Type :=
| JUndefined
| JVal (v : pyval).

Definition context : Type := list (string * pyval).

Fixpoint resolve (name : string) (ctx : context) : jval :=
  match ctx with
  | [] => JUndefined
  | (x, v) :: rest => if String.eqb name x then JVal v else resolve name rest
  end.

(** The names [getattr] finds on a [dict] object itself, before any key. *)
Definition dict_attributes : list string :=
  ["clear"; "copy"; "fromkeys"; "get"; "items"; "keys"; "pop"; "popitem";
   "setdefault"; "update"; "values"].

Definition is_python_attribute (attr : string) : bool :=
  existsb (String.eqb attr) dict_attributes || String.prefix "_" attr.

(** [d[attr]] on the entries of a dict. *)
Fixpoint getitem (attr : string) (kvs : list (pyval * pyval)) : jval :=
  match kvs with
  | [] => JUndefined
  | (k, v) :: rest => if key_is attr k then JVal v else getitem attr rest
  end.

(** [obj.attr]: attribute access falls back to subscription, which finds
    the keys of a mapping, and a key that is missing gives an undefined
    value; an attribute of an undefined value is an error. *)
Definition getattr (obj : jval) (attr : string) : string + jval :=
  match obj with
  | JUndefined => inl ("'" +:+ attr +:+ "' is undefined")
  | JVal (PyDict kvs) =>
      if is_python_attribute attr
      then inl "an attribute of the dict object is outside the fragment"
      else inr (getitem attr kvs)
  | JVal _ => inl "an attribute of a value that is not a mapping is outside the fragment"
  end.

Fixpoint eval (e : expr) (ctx : context) : string + jval :=
  match e with
  | EVar x =>
      if String.eqb x "loop" then inl "the loop variable is outside the fragment"
      else inr (resolve x ctx)
  | EAttr o a =>
      match eval o ctx with
      | inl d => inl d
      | inr v => getattr v a
      end
  end.

(** [str(v)] as [{{ v }}] prints it. *)
Definition to_text (v : jval) : string + string :=
  match v with
  | JUndefined => inr ""
  | JVal PyNone => inr "None"
  | JVal (PyBool b) => inr (if b then "True" else "False")
  | JVal (PyInt n) => inr (pretty n)
  | JVal (PyFloat r) => inr r
  | JVal (PyStr s) => inr s
  | JVal (PyDate r) => inr r
  | JVal (PyBytes _) => inl "printing bytes is outside the fragment"
  | JVal (PyList _) => inl "printing a list is outside the fragment"
  | JVal (PyTuple _) => inl "printing a tuple is outside the fragment"
  | JVal (PySet _) => inl "printing a set is outside the fragment"
  | JVal (PyDict _) => inl "printing a dict is outside the fragment"
  end.

Definition chars (s : string) : list pyval :=
  map (fun a => PyStr (String a "")) (list_ascii_of_string s).

(** The items a [for] block walks over. *)
Definition iterate (v : jval) : string + list pyval :=
  match v with
  | JUndefined => inr []
  | JVal (PyList items) => inr items
  | JVal (PyTuple items) => inr items
  | JVal (PyDict kvs) => inr (map fst kvs)
  | JVal (PyStr s) => inr (chars s)
  | JVal (PySet _) => inl "the order of a set is outside the fragment"
  | JVal (PyBytes _) => inl "iterating bytes is outside the fragment"
  | JVal PyNone => inl "'NoneType' object is not iterable"
  | JVal (PyBool _) => inl "'bool' object is not iterable"
  | JVal (PyInt _) => inl "'int' object is not iterable"
  | JVal (PyFloat _) => inl "'float' object is not iterable"
  | JVal (PyDate _) => inl "'datetime.date' object is not iterable"
  end.

Definition truthy (v : jval) : bool :=
  match v with
  | JUndefined => false
  | JVal PyNone => false
  | JVal (PyBool b) => b
  | JVal (PyInt n) => negb (n =? 0)%Z
  | JVal (PyFloat r) => negb (String.eqb r "0.0" || String.eqb r "-0.0")
  | JVal (PyStr s) => negb (String.eqb s "")
  | JVal (PyBytes b) => negb (String.eqb b "")
  | JVal (PyDate _) => true
  | JVal (PyList items) => match items with [] => false | _ => true end
  | JVal (PyTuple items) => match items with [] => false | _ => true end
  | JVal (PySet items) => match items with [] => false | _ => true end
  | JVal (PyDict kvs) => match kvs with [] => false | _ => true end
  end.

Fixpoint render_node (n : node) (ctx : context) {struct n} : string + string :=
  let render_body :=
    fix render_body (ns : list node) (ctx : context) {struct ns} : string + string :=
      match ns with
      | [] => inr ""
      | n' :: rest =>
          match render_node n' ctx with
          | inl d => inl d
          | inr a =>
              match render_body rest ctx with
              | inl d => inl d
              | inr b => inr (a +:+ b)
              end
          end
      end in
  match n with
  | NText t => inr t
  | NOutput e =>
      match eval e ctx with
      | inl d => inl d
      | inr v => to_text v
      end
  | NFor x e body =>
      match eval e ctx with
      | inl d => inl d
      | inr v =>
          match iterate v with
          | inl d => inl d
          | inr items =>
              (fix loop (items : list pyval) : string + string :=
                 match items with
                 | [] => inr ""
                 | item :: rest =>
                     match render_body body ((x, item) :: ctx) with
                     | inl d => inl d
                     | inr a =>
                         match loop rest with
                         | inl d => inl d
                         | inr b => inr (a +:+ b)
                         end
                     end
                 end) items
          end
      end
  | NIf e body =>
      match eval e ctx with
      | inl d => inl d
      | inr v => if truthy v then render_body body ctx else inr ""
      end
  end.

Fixpoint render_nodes (ns : list node) (ctx : context) : string + string :=
  match ns with
  | [] => inr ""
  | n :: rest =>
      match render_node n ctx with
      | inl d => inl d
      | inr a =>
          match render_nodes rest ctx with
          | inl d => inl d
          | inr b => inr (a +:+ b)
          end
      end
  end.

(** [template.render(config=cfg)] *)
Definition render (t : template) (cfg : pyval) : string + string :=
  render_nodes t [("config", cfg)].

End MiniJinja.

(** ** Lines of a text *)

Definition newline : ascii := ascii_of_nat 10.

(** The lines of [s], split at line feeds; the text after the last line
    feed counts as a line only when it is not empty. *)
Fixpoint lines_from (cur : string) (s : string) : list string :=
  match s with
  | EmptyString => match cur with EmptyString => [] | _ => [String.rev cur] end
  | String a rest =>
      if Ascii.eqb a newline then String.rev cur :: lines_from "" rest
      else lines_from (String a cur) rest
  end.

Definition lines (s : string) : list string := lines_from "" s.

Definition count_lines (l : string) (s : string) : nat :=
  length (filter (fun x => String.eqb l x = true) (lines s)).

(** ** Scenario A of the specification *)

Module ScenarioA.

(** [{policies: [{name: "Disable cups", services: ["cups"]}]}] *)
Definition configuration : pyval :=
  PyDict [(PyStr "policies",
           PyList [PyDict [(PyStr "name", PyStr "Disable cups");
                           (PyStr "services", PyList [PyStr "cups"])]])].

(** The template
    [{% for policy in config.policies %}{% for service in policy.services %}systemctl disable {{ service }}]
    followed by a line feed and [{% endfor %}{% endfor %}]. *)
Definition script_template : MiniJinja.template :=
  [MiniJinja.NFor "policy" (MiniJinja.EAttr (MiniJinja.EVar "config") "policies")
     [MiniJinja.NFor "service" (MiniJinja.EAttr (MiniJinja.EVar "policy") "services")
        [MiniJinja.NText "systemctl disable ";
         MiniJinja.NOutput (MiniJinja.EVar "service");
         MiniJinja.NText (String newline "")]]].

(** The same configuration as a YAML document, and the template as it is
    written in its file. *)
Definition config_text : string :=
  "{policies: [{name: Disable cups, services: [cups]}]}".

Definition template_source : string :=
  "{% for policy in config.policies %}{% for service in policy.services %}systemctl disable {{ service }}"
  +:+ String newline "{% endfor %}{% endfor %}".

End ScenarioA.

(** ** Sample instances

    Stand-ins for the two parsers that know a few documents by heart, a
    locale that encodes ASCII only, exception texts in the shape Python
    and Jinja2 3.1.6 print them for plain paths (the codec messages cut
    short, without positions), and a small disk on which a path may be
    written with [./] before it.  They give the general statements
    concrete inputs to be run on. *)

Module Sample.

Definition safe_load (text : string) : string + pyval :=
  if String.eqb text "" then inr PyNone
  else if String.eqb text ScenarioA.config_text then inr ScenarioA.configuration
  else if String.eqb text "name: demo" then inr (PyDict [(PyStr "name", PyStr "demo")])
  else if String.eqb text "[1, 2, 3]" then inr (PyList [PyInt 1; PyInt 2; PyInt 3])
  else inl "could not find expected ':'".

Definition compile (src : string) : string + MiniJinja.template :=
  if String.eqb src ScenarioA.template_source then inr ScenarioA.script_template
  else if String.eqb src "{{ config.name }}"
       then inr [MiniJinja.NOutput (MiniJinja.EAttr (MiniJinja.EVar "config") "name")]
  else if String.eqb src "{{ config.owner.name }}"
       then inr [MiniJinja.NOutput
                   (MiniJinja.EAttr (MiniJinja.EAttr (MiniJinja.EVar "config") "owner") "name")]
  else inl "unexpected end of template".

Definition is_ascii (a : ascii) : bool :=
  match a with
  | Ascii _ _ _ _ _ _ _ b7 => negb b7
  end.

Definition encodable (text : string) : bool :=
  forallb is_ascii (list_ascii_of_string text).

Definition library_str (e : exn) : string :=
  match e with
  | FileNotFoundError p => "[Errno 2] No such file or directory: '" +:+ p +:+ "'"
  | PermissionError p => "[Errno 13] Permission denied: '" +:+ p +:+ "'"
  | IsADirectoryError p => "[Errno 21] Is a directory: '" +:+ p +:+ "'"
  | NotADirectoryError p => "[Errno 20] Not a directory: '" +:+ p +:+ "'"
  | TemplateNotFound name =>
      match template_file name with
      | None => name
      | Some _ => "'" +:+ name +:+ "' not found in search path: '.'"
      end
  | UnicodeDecodeError _ => "'ascii' codec can't decode bytes"
  | UnicodeEncodeError _ => "'ascii' codec can't encode characters"
  | _ => ""
  end.

(** A path without the [./] it starts with. *)
Fixpoint canon (p : string) : string :=
  match p with
  | String "." (String "/" rest) => canon rest
  | _ => p
  end.

(** What a path at which nothing exists meets: below the regular file
    [config.yaml] there is no directory to look into. *)
Definition obstacle (p : string) : parent_dir :=
  if String.prefix "config.yaml/" (canon p) then ParentNotDirectory
  else ParentWritable.

Definition disk : filesystem :=
  {| entries :=
       list_to_map
         [("config.yaml", RegularFile ScenarioA.config_text true true);
          ("copy.yaml", RegularFile ScenarioA.config_text true false);
          ("demo.yaml", RegularFile "name: demo" true true);
          ("empty.yaml", RegularFile "" true true);
          ("list.yaml", RegularFile "[1, 2, 3]" true true);
          ("broken.yaml", RegularFile "policies: [" true true);
          ("locked.yaml", RegularFile "name: demo" false true);
          ("templates", Directory);
          ("templates/linux/CIS.j2", RegularFile ScenarioA.template_source true false);
          ("templates/linux/echo.j2", RegularFile "{{ config.name }}" true false);
          ("templates/linux/deep.j2", RegularFile "{{ config.owner.name }}" true false);
          ("logo.yaml", BinaryFile "GIF89a" true true);
          ("hardening.sh", RegularFile "echo old" true true)];
     locate := canon;
     parent_of := obstacle;
     locate_here := fun p _ => eq_refl |}.


Definition make (standard cfg out plat : string) : generator MiniJinja.template :=
  init MiniJinja.template standard cfg out plat.

Definition run : state MiniJinja.template -> (exn + unit) * state MiniJinja.template :=
  run MiniJinja.template safe_load compile MiniJinja.render encodable library_str.

Definition main : string -> string -> string -> string -> world -> Z * world :=
  main MiniJinja.template safe_load compile MiniJinja.render encodable library_str.

End Sample.

(** ** Processes that walk a set in different orders

    A set built by [yaml.safe_load] has no order of its own: a process
    walks it in the order of the hashes of its items, and CPython salts
    the hashes of strings anew for each process.  The engine of a process
    is therefore the evaluator together with the order the process gives
    to each set. *)

Module SetOrder.

(** The value as a process sees it when it walks it: each set laid out in
    the order of the process. *)
Fixpoint set_view (order : list pyval -> list pyval) (v : pyval) : pyval :=
  match v with
  | PySet items => PyList (order (map (set_view order) items))
  | PyList items => PyList (map (set_view order) items)
  | PyTuple items => PyTuple (map (set_view order) items)
  | PyDict kvs =>
      PyDict (map (fun kv : pyval * pyval =>
                     let (k, x) := kv in (k, set_view order x)) kvs)
  | _ => v
  end.

Definition engine (order : list pyval -> list pyval)
    (t : MiniJinja.template) (v : pyval) : string + string :=
  MiniJinja.render t (set_view order v).

(** [services: !!set {atd, cups}] *)
Definition config_text : string := "services: !!set {atd, cups}".

Definition configuration : pyval :=
  PyDict [(PyStr "services", PySet [PyStr "atd"; PyStr "cups"])].

(** The template [{% for service in config.services %}systemctl disable {{ service }}]
    followed by a line feed and [{% endfor %}]. *)
Definition template_source : string :=
  "{% for service in config.services %}systemctl disable {{ service }}"
  +:+ String newline "{% endfor %}".

Definition script_template : MiniJinja.template :=
  [MiniJinja.NFor "service" (MiniJinja.EAttr (MiniJinja.EVar "config") "services")
     [MiniJinja.NText "systemctl disable ";
      MiniJinja.NOutput (MiniJinja.EVar "service");
      MiniJinja.NText (String newline "")]].

Definition safe_load (text : string) : string + pyval :=
  if String.eqb text config_text then inr configuration
  else Sample.safe_load text.

Definition compile (src : string) : string + MiniJinja.template :=
  if String.eqb src template_source then inr script_template
  else Sample.compile src.

Definition disk : filesystem :=
  {| entries :=
       list_to_map
         [("services.yaml", RegularFile config_text true true);
          ("config.yaml", RegularFile ScenarioA.config_text true true);
          ("templates/linux/services.j2", RegularFile template_source true true);
          ("templates/linux/CIS.j2", RegularFile ScenarioA.template_source true true)];
     locate := Sample.canon;
     parent_of := Sample.obstacle;
     locate_here := fun p _ => eq_refl |}.

(** The run of a process that gives the order [order] to its sets. *)
Definition run (order : list pyval -> list pyval)
  : state MiniJinja.template -> (exn + unit) * state MiniJinja.template :=
  CompliancePolicyGenerator.run MiniJinja.template safe_load compile (engine order)
    Sample.encodable Sample.library_str.

End SetOrder.

(** The records logged between [w] and a later world [w']. *)
Definition logged (w w' : world) : list log_record :=
  drop (length (log w)) (log w').

(** * Properties *)

(** Unfolding of the monad and of the primitive operations. *)
Ltac unfold_monad :=
  unfold method, try_except, bind, ret, raise, self, logging, record,
    set_config, set_template, set_fs, open_read, open_write, write,
    yaml_safe_load, get_template, template_render in *.

Ltac crunch :=
  unfold_monad; simpl in *;
  repeat (case_match; simplify_eq; simpl in *; try done).

Section PipelineProperties.

Variable template : Type.
Variable safe_load : string -> string + pyval.
Variable compile : string -> string + template.
Variable render : template -> pyval -> string + string.
Variable encodable : string -> bool.
Variable library_str : exn -> string.

Abbreviation generator := (generator template).
Abbreviation state := (state template).
Abbreviation load_config := (load_config template safe_load library_str).
Abbreviation validate_config := (validate_config template).
Abbreviation load_template := (load_template template compile library_str).
Abbreviation generate_script := (generate_script template render encodable library_str).
Abbreviation run := (run template safe_load compile render encodable library_str).
Abbreviation main := (main template safe_load compile render encodable library_str).
Abbreviation script_outcome := (script_outcome template render encodable).
Abbreviation render_raises := (render_raises render).
Abbreviation loaded_inputs := (loaded_inputs template safe_load compile).
Abbreviation abort := (abort library_str).
Abbreviation str_exn := (str_exn library_str).

(** *** What each stage does, case by case *)

Lemma load_config_eq (w : world) (g : generator) :
  load_config (w, g) =
  let cf := config_file g in
  match os_read cf (fs w) with
  | inl e =>
      (inl e,
       (after LoadConfig (fs w)
          (match e with
           | FileNotFoundError _ =>
               [(ERROR, "Configuration file not found: " +:+ cf)]
           | _ => []
           end) false w, g))
  | inr text =>
      match safe_load text with
      | inl d =>
          (inl (YAMLError d),
           (after LoadConfig (fs w)
              [(ERROR, "Error parsing YAML configuration: " +:+ d)] false w, g))
      | inr v =>
          (inr tt,
           (after LoadConfig (fs w)
              [(INFO, "Configuration loaded from " +:+ cf)] true w,
            with_config v g))
      end
  end.
Proof.
  unfold CompliancePolicyGenerator.load_config, after. unfold_monad. simpl.
  assert (Hy : forall e, os_read (config_file g) (fs w) = inl e ->
                 match e with YAMLError _ => False | _ => True end).
  { unfold os_read. intros e Hr. repeat case_match; by simplify_eq. }
  destruct (os_read (config_file g) (fs w)) as [e|text] eqn:E0; simpl.
  - specialize (Hy e eq_refl). destruct e; simpl; try done; by rewrite app_nil_r.
  - destruct (safe_load text); simpl; done.
Qed.

Lemma validate_config_eq (w : world) (g : generator) :
  validate_config (w, g) =
  if isinstance_dict (config g) then
    (inr tt,
     (after ValidateConfig (fs w)
        (if dict_contains "policies" (config g) then []
         else [(WARNING, missing_policies_warning)]) true w, g))
  else
    (inl (ValueError "Invalid configuration format"),
     (after ValidateConfig (fs w)
        [(ERROR, "Invalid configuration format. Expected a dictionary.")] false w, g)).
Proof.
  unfold CompliancePolicyGenerator.validate_config, after. unfold_monad. simpl.
  destruct (isinstance_dict (config g)) eqn:Hd; simpl.
  - destruct (dict_contains "policies" (config g)); simpl; try done.
    by rewrite app_nil_r.
  - done.
Qed.

(** What the body of [get_template] answers for a name. *)
Lemma get_template_eq (name : string) (s : state) :
  get_template template compile name s =
  (match loader_finds name (fs (fst s)), template_file name with
   | true, Some filename =>
       match os_read filename (fs (fst s)) with
       | inl e => inl e
       | inr src =>
           match compile src with
           | inl d => inl (TemplateSyntaxError d)
           | inr t => inr t
           end
       end
   | _, _ => inl (TemplateNotFound name)
   end, s).
Proof.
  unfold get_template, loader_finds.
  destruct (template_file name) as [filename|]; [|done].
  destruct (isfile filename (fs (fst s))); [|done].
  destruct (os_read filename (fs (fst s))) as [e|src]; [done|].
  by destruct (compile src).
Qed.

(** A file that [isfile] finds is never missing when it is opened. *)
Lemma os_read_isfile (p : string) (f : filesystem) (e : exn) :
  isfile p f = true -> os_read p f = inl e ->
  e = PermissionError p \/ exists raw, e = UnicodeDecodeError raw.
Proof.
  unfold isfile, os_read.
  destruct (file_at p f) as [[c [] ?|raw [] ?|]|]; intros ? H; simplify_eq; eauto.
Qed.

Lemma load_template_eq (w : world) (g : generator) :
  load_template (w, g) =
  let path := template_path (platform g) (compliance_standard g) in
  match fst (get_template template compile path (w, g)) with
  | inl e =>
      (inl e,
       (after LoadTemplate (fs w)
          [(ERROR,
            match e with
            | TemplateNotFound _ => "Template not found: " +:+ path
            | _ => "Error loading template: " +:+ str_exn e
            end)] false w, g))
  | inr t =>
      (inr tt,
       (after LoadTemplate (fs w)
          [(INFO, "Template loaded from " +:+ path)] true w,
        with_template t g))
  end.
Proof.
  unfold CompliancePolicyGenerator.load_template, after. cbv zeta.
  unfold method, bind, self, try_except, record. cbn [fst snd].
  rewrite !get_template_eq. cbn [fst snd fs].
  destruct (loader_finds _ (fs w)) eqn:Ef;
    [destruct (template_file _) as [filename|] eqn:Et|];
    try (unfold logging, raise; simpl; done).
  destruct (os_read filename (fs w)) as [e|src] eqn:Er.
  - unfold loader_finds in Ef. rewrite Et in Ef.
    destruct (os_read_isfile _ _ _ Ef Er) as [->|[raw ->]];
      unfold logging, raise; simpl; done.
  - destruct (compile src); unfold set_template, logging, raise; simpl; done.
Qed.

Lemma os_open_w_truncates (p : string) (f f1 : filesystem) :
  os_open_w p f = inr f1 ->
  file_content p f1 = Some "" /\
  locate f1 = locate f /\
  forall k, k <> locate f p -> entries f1 !! k = entries f !! k.
Proof.
  unfold os_open_w, file_content, file_at, set_entry.
  destruct (entries f !! locate f p) as [[c r []|raw r []|]|] eqn:E;
    try destruct (parent_of f p); intros H; simplify_eq; simpl;
    rewrite lookup_insert_eq; (split; [done|]); (split; [done|]);
    intros k Hk; by rewrite lookup_insert_ne.
Qed.

Lemma os_open_w_then_write (p : string) (f f1 : filesystem) (text : string) :
  os_open_w p f = inr f1 ->
  exists f2, os_write p text f1 = inr f2 /\
             file_content p f2 = Some text /\
             locate f2 = locate f /\
             forall k, k <> locate f p -> entries f2 !! k = entries f !! k.
Proof.
  intros Ho. destruct (os_open_w_truncates _ _ _ Ho) as (Hc & Hl & Hq).
  unfold file_content, file_at in Hc. unfold os_write, file_content, file_at, set_entry.
  destruct (entries f1 !! locate f1 p) as [[c r wr|?|]|] eqn:E; try done.
  eexists. split; [reflexivity|]. simpl. rewrite lookup_insert_eq.
  split; [done|]. split; [done|].
  intros k Hne. rewrite Hl. rewrite lookup_insert_ne by done. auto.
Qed.

Lemma generate_script_eq (w : world) (g : generator) :
  generate_script (w, g) =
  match script_outcome (fs w) g with
  | (inl e, f) =>
      (inl e,
       (after GenerateScript f
          [(ERROR, "Error generating script: " +:+ str_exn e)] false w, g))
  | (inr _, f) =>
      (inr tt,
       (after GenerateScript f
          [(INFO, "Script generated successfully: " +:+ output_file g)] true w, g))
  end.
Proof.
  assert (He : forall e f0, os_open_w (output_file g) f0 = inl e ->
                 is_Exception e = true).
  { unfold os_open_w. intros e f0 H. repeat case_match; by simplify_eq. }
  unfold CompliancePolicyGenerator.generate_script,
    CompliancePolicyGenerator.script_outcome, after.
  unfold_monad. simpl.
  destruct (loaded g) as [t|]; simpl; try done.
  destruct (render t (config g)) as [d|text]; simpl; try done.
  destruct (os_open_w (output_file g) (fs w)) as [e|f1] eqn:Ho; simpl.
  { by rewrite (He _ _ Ho). }
  destruct (os_open_w_then_write _ _ _ text Ho) as (f2 & Hx & _).
  destruct (encodable text); simpl; [|done]. by rewrite Hx.
Qed.

(** No stage raises anything but an [Exception]. *)
Lemma os_read_Exception (p : string) (f : filesystem) (e : exn) :
  os_read p f = inl e -> is_Exception e = true.
Proof. unfold os_read. intros H. repeat case_match; by simplify_eq. Qed.

Lemma os_open_w_Exception (p : string) (f : filesystem) (e : exn) :
  os_open_w p f = inl e -> is_Exception e = true.
Proof. unfold os_open_w. intros H. repeat case_match; by simplify_eq. Qed.

Lemma load_config_Exception s e s' :
  load_config s = (inl e, s') -> is_Exception e = true.
Proof.
  destruct s as [w g]. rewrite load_config_eq. cbv zeta.
  destruct (os_read (config_file g) (fs w)) as [e0|text] eqn:Er.
  - intros H. simplify_eq. by eapply os_read_Exception.
  - destruct (safe_load text); intros H; by simplify_eq.
Qed.

Lemma validate_config_Exception s e s' :
  validate_config s = (inl e, s') -> is_Exception e = true.
Proof.
  destruct s as [w g]. rewrite validate_config_eq.
  intros H. repeat case_match; by simplify_eq.
Qed.

Lemma get_template_Exception name s e :
  fst (get_template template compile name s) = inl e -> is_Exception e = true.
Proof.
  rewrite get_template_eq. cbn [fst]. intros H.
  destruct (loader_finds _ _); [|by simplify_eq].
  destruct (template_file name) as [filename|]; [|by simplify_eq].
  destruct (os_read filename _) as [e0|src] eqn:Er.
  - simplify_eq. by eapply os_read_Exception.
  - destruct (compile src); by simplify_eq.
Qed.

Lemma load_template_Exception s e s' :
  load_template s = (inl e, s') -> is_Exception e = true.
Proof.
  destruct s as [w g]. rewrite load_template_eq. cbv zeta.
  destruct (fst (get_template _ _ _ _)) as [e0|t] eqn:Eg; intros H; simplify_eq.
  by eapply get_template_Exception.
Qed.

Lemma script_outcome_Exception f0 g e f :
  script_outcome f0 g = (inl e, f) -> is_Exception e = true.
Proof.
  unfold CompliancePolicyGenerator.script_outcome.
  destruct (loaded g) as [t|]; [|intros H; by simplify_eq].
  destruct (render t (config g)) as [d|text]; [intros H; by simplify_eq|].
  destruct (os_open_w (output_file g) f0) as [e0|f1] eqn:Ho.
  { intros H. simplify_eq. by eapply os_open_w_Exception. }
  destruct (os_open_w_then_write _ _ _ text Ho) as (f2 & Hx & _).
  rewrite Hx. destruct (encodable text); intros H; by simplify_eq.
Qed.

Lemma generate_script_Exception s e s' :
  generate_script s = (inl e, s') -> is_Exception e = true.
Proof.
  destruct s as [w g]. rewrite generate_script_eq.
  destruct (script_outcome (fs w) g) as [[e0|[]] f] eqn:E; intros H; simplify_eq.
  by eapply script_outcome_Exception.
Qed.

(** [run] is the four stages in sequence, the first failure handed to the
    handler. *)
Lemma run_eq (s : state) :
  run s =
  match load_config s with
  | (inl e, s1) => abort e s1
  | (inr _, s1) =>
      match validate_config s1 with
      | (inl e, s2) => abort e s2
      | (inr _, s2) =>
          match load_template s2 with
          | (inl e, s3) => abort e s3
          | (inr _, s3) =>
              match generate_script s3 with
              | (inl e, s4) => abort e s4
              | (inr u, s4) => (inr u, s4)
              end
          end
      end
  end.
Proof.
  unfold CompliancePolicyGenerator.run, try_except, bind, abort.
  destruct (load_config s) as [[e|[]] s1] eqn:E1.
  { rewrite (load_config_Exception _ _ _ E1). done. }
  destruct (validate_config s1) as [[e|[]] s2] eqn:E2.
  { rewrite (validate_config_Exception _ _ _ E2). done. }
  destruct (load_template s2) as [[e|[]] s3] eqn:E3.
  { rewrite (load_template_Exception _ _ _ E3). done. }
  destruct (generate_script s3) as [[e|[]] s4] eqn:E4.
  { rewrite (generate_script_Exception _ _ _ E4). done. }
  done.
Qed.

Lemma run_result (s : state) :
  fst (run s) = inr tt \/ fst (run s) = inl (SystemExit 1).
Proof.
  rewrite run_eq. unfold abort.
  destruct (load_config s) as [[?|[]] s1]; simpl; auto.
  destruct (validate_config s1) as [[?|[]] s2]; simpl; auto.
  destruct (load_template s2) as [[?|[]] s3]; simpl; auto.
  destruct (generate_script s3) as [[?|[]] s4]; simpl; auto.
Qed.

(** [main] ends with status 0 when [run] returns and with status 1 when it
    raises; its own handler never fires. *)
Lemma main_eq standard cfg out plat (w : world) :
  main standard cfg out plat w =
  let r := run (w, init template standard cfg out plat) in
  (match fst r with inr _ => 0%Z | inl _ => 1%Z end, fst (snd r)).
Proof.
  unfold CompliancePolicyGenerator.main, try_except. cbv zeta.
  destruct (run_result (w, init template standard cfg out plat)) as [H|H];
    destruct (run _) as [[e|[]] s'] eqn:E; simpl in *; simplify_eq; done.
Qed.

(** The record of events only grows, and [since] reads off what was
    added. *)
Lemma since_app (w w' : world) (evs : list event) :
  events w' = events w ++ evs -> since w w' = evs.
Proof. unfold since. intros ->. by rewrite drop_app_length. Qed.

Lemma logged_app (w w' : world) (l : list log_record) :
  log w' = log w ++ l -> logged w w' = l.
Proof. unfold logged. intros ->. by rewrite drop_app_length. Qed.

Ltac read_events :=
  apply since_app; unfold after, CompliancePolicyGenerator.abort; simpl;
  rewrite <- ?app_assoc; reflexivity.

Lemma get_template_reads name s src :
  loader_reads name (fs (fst s)) = Some src ->
  fst (get_template template compile name s) =
  match compile src with
  | inl d => inl (TemplateSyntaxError d)
  | inr t => inr t
  end.
Proof.
  rewrite get_template_eq. cbn [fst]. unfold loader_reads, loader_finds, readable_as.
  destruct (template_file name) as [filename|]; [|done].
  destruct (isfile filename _); [|done].
  destruct (os_read filename _); intros H; by simplify_eq.
Qed.

Lemma get_template_fails name s :
  loader_reads name (fs (fst s)) = None ->
  exists e, fst (get_template template compile name s) = inl e.
Proof.
  rewrite get_template_eq. cbn [fst]. unfold loader_reads, loader_finds, readable_as.
  destruct (template_file name) as [filename|]; [|by eauto].
  destruct (isfile filename _); [|by eauto].
  destruct (os_read filename _); intros H; simplify_eq. eauto.
Qed.

(** One statement for the whole run: when the first three stages do not
    all return, the run fails with the file system as it was; when they
    do, the object holds what they loaded and the run ends as the body of
    [generate_script] does. *)
Lemma run_summary (w : world) (g : generator) :
  let r := run (w, g) in
  let w' := fst (snd r) in
  match loaded_inputs (readable_as (config_file g) (fs w))
          (loader_reads (template_path (platform g) (compliance_standard g)) (fs w)) with
  | None =>
      fst r = inl (SystemExit 1) /\ fs w' = fs w /\
      exists n, n < 3 /\ since w w' = failed_at n
  | Some (v, t) =>
      let g' := with_template t (with_config v g) in
      snd (snd r) = g' /\
      match script_outcome (fs w) g' with
      | (inl _, f) =>
          fst r = inl (SystemExit 1) /\ fs w' = f /\ since w w' = failed_at 3
      | (inr _, f) =>
          fst r = inr tt /\ fs w' = f /\ since w w' = completed pipeline
      end
  end.
Proof.
  cbv zeta. destruct (run (w, g)) as [r [w' g']] eqn:E. cbn [fst snd].
  rewrite run_eq, load_config_eq in E. cbv zeta in E.
  unfold CompliancePolicyGenerator.loaded_inputs, readable_as at 1.
  destruct (os_read (config_file g) (fs w)) as [e|text] eqn:Er.
  { unfold CompliancePolicyGenerator.abort in E. cbn [fst snd] in E.
    injection E as Hr Hw Hg; subst r w' g'.
    split; [done|]; split; [done|]; exists 0; split; [lia|]; read_events. }
  destruct (safe_load text) as [d|v].
  { unfold CompliancePolicyGenerator.abort in E. cbn [fst snd] in E.
    injection E as Hr Hw Hg; subst r w' g'.
    split; [done|]; split; [done|]; exists 0; split; [lia|]; read_events. }
  rewrite validate_config_eq in E. simpl config in E.
  destruct (isinstance_dict v).
  2: { unfold CompliancePolicyGenerator.abort in E. cbn [fst snd] in E.
       injection E as Hr Hw Hg; subst r w' g'.
       split; [done|]; split; [done|]; exists 1; split; [lia|]; read_events. }
  rewrite load_template_eq in E. cbv zeta in E. simpl platform in E.
  simpl compliance_standard in E.
  destruct (loader_reads _ (fs w)) as [src|] eqn:El.
  2: { match type of E with
       | context [get_template _ _ ?n ?s] =>
           destruct (get_template_fails n s El) as [e He]
       end.
       rewrite He in E.
       unfold CompliancePolicyGenerator.abort in E. cbn [fst snd] in E.
       injection E as Hr Hw Hg; subst r w' g'.
       split; [done|]; split; [done|]; exists 2; split; [lia|]; read_events. }
  match type of E with
  | context [get_template _ _ ?n ?s] =>
      rewrite (get_template_reads n s src El) in E
  end.
  destruct (compile src) as [d|t].
  { unfold CompliancePolicyGenerator.abort in E. cbn [fst snd] in E.
    injection E as Hr Hw Hg; subst r w' g'.
    split; [done|]; split; [done|]; exists 2; split; [lia|]; read_events. }
  rewrite generate_script_eq in E. simpl fs in E.
  destruct (script_outcome _ _) as [[e|[]] f];
    unfold CompliancePolicyGenerator.abort in E; cbn [fst snd] in E;
    injection E as Hr Hw Hg; subst r w' g';
    (split; [done|]; split; [done|]; split; [done|]; read_events).
Qed.

(** *** Claims *)

(** C1: [validate_config] raises its shape error ([ValueError]) exactly when
    the configuration is not a mapping: on any mapping, whatever its keys,
    it returns; on a sequence or a scalar it raises. *)
Theorem validate_config_raises_iff_not_mapping (w : world) (g : generator) :
  match config g with
  | PyDict _ => fst (validate_config (w, g)) = inr tt
  | _ => fst (validate_config (w, g)) = inl (ValueError "Invalid configuration format")
  end.
Proof.
  rewrite validate_config_eq.
  destruct (config g); reflexivity.
Qed.

(** C2: the process runs [load_config], [validate_config], [load_template],
    [generate_script] in this order.  Either all four return and the exit
    status is 0, or one of them raises, no later stage is entered, and the
    exit status is 1. *)
Theorem run_stages_in_order_exit_status standard cfg out plat (w : world) :
  let r := main standard cfg out plat w in
  (fst r = 0%Z /\ since w (snd r) = completed pipeline) \/
  (fst r = 1%Z /\ exists n, n < length pipeline /\ since w (snd r) = failed_at n).
Proof.
  cbv zeta. rewrite main_eq. cbv zeta. cbn [fst snd].
  pose proof (run_summary w (init template standard cfg out plat)) as S.
  cbv zeta in S. destruct (loaded_inputs _ _) as [[v t]|].
  - destruct S as [_ S].
    destruct (script_outcome _ _) as [[e|[]] f]; destruct S as (-> & _ & ->).
    + right. split; [done|]. exists 3. split; [simpl; lia|done].
    + left. done.
  - destruct S as (-> & _ & n & Hn & ->).
    right. split; [done|]. exists n. split; [simpl; lia|done].
Qed.

(** C4: when a stage before [generate_script] raises, or the render call
    of [generate_script] itself raises, the run fails and leaves the file
    system as it found it: nothing is created at the output path and a
    file already there keeps its content. *)
Theorem failure_before_write_leaves_output_untouched (w : world) (g : generator) :
  let r := run (w, g) in
  let w' := fst (snd r) in
  (exists st, st <> GenerateScript /\ In (Raised st) (since w w')) \/
  render_raises (snd (snd r)) = true ->
  fst r = inl (SystemExit 1) /\
  fs w' = fs w /\
  file_at (output_file g) (fs w') = file_at (output_file g) (fs w).
Proof.
  cbv zeta. intros H.
  cut (fst (run (w, g)) = inl (SystemExit 1) /\ fs (fst (snd (run (w, g)))) = fs w).
  { intros [? ->]. done. }
  pose proof (run_summary w g) as S. cbv zeta in S.
  destruct (loaded_inputs _ _) as [[v t]|].
  - destruct S as [Hg S]. rewrite Hg in H.
    unfold CompliancePolicyGenerator.script_outcome, CompliancePolicyGenerator.render_raises in *.
    simpl in *.
    destruct (render t v) as [d|text].
    + destruct S as (? & ? & ?). done.
    + destruct H as [(st & Hst & Hin)|?]; [|done].
      destruct (os_open_w _ _) as [e|f]; [|destruct (encodable text)];
        [| destruct (os_write _ _ _) as [e|f'] |];
        destruct S as (? & ? & Hev); rewrite Hev in Hin;
        vm_compute in Hin; intuition congruence.
  - destruct S as (? & ? & ?). done.
Qed.

Lemma readable_as_Some (p : string) (f : filesystem) (text : string) :
  readable_as p f = Some text -> os_read p f = inr text.
Proof.
  unfold readable_as. destruct (os_read p f); intros H; by simplify_eq.
Qed.

(** C5: on a mapping without a ['policies'] key [validate_config] logs one
    WARNING record and returns; in a run that loaded such a configuration
    the warning is logged, [load_template] is entered next, and once
    [load_template] has returned [generate_script], which renders, is
    entered. *)
Theorem missing_policies_warns_and_proceeds (w : world) (g : generator)
    (kvs : list (pyval * pyval)) :
  dict_contains "policies" (PyDict kvs) = false ->
  (let r := validate_config (w, with_config (PyDict kvs) g) in
   fst r = inr tt /\
   log (fst (snd r)) = log w ++ [(WARNING, missing_policies_warning)]) /\
  (forall text,
     readable_as (config_file g) (fs w) = Some text ->
     safe_load text = inr (PyDict kvs) ->
     let w' := fst (snd (run (w, g))) in
     In (WARNING, missing_policies_warning) (log w') /\
     take 5 (since w w') = completed [LoadConfig; ValidateConfig] ++ [Entered LoadTemplate] /\
     (In (Returned LoadTemplate) (since w w') ->
      In (Entered GenerateScript) (since w w'))).
Proof.
  intros Hk. split.
  { cbv zeta. rewrite validate_config_eq. simpl config. simpl isinstance_dict.
    rewrite Hk. done. }
  intros text Hr Hp. cbv zeta.
  pose proof (readable_as_Some _ _ _ Hr) as E0.
  destruct (run (w, g)) as [r [w' g']] eqn:E. cbn [fst snd].
  rewrite run_eq, load_config_eq in E. cbv zeta in E. rewrite E0, Hp in E.
  rewrite validate_config_eq in E. simpl config in E.
  simpl isinstance_dict in E. rewrite Hk in E.
  rewrite load_template_eq in E. cbv zeta in E.
  destruct (fst (get_template _ _ _ _)) as [e|t];
    [|rewrite generate_script_eq in E; simpl fs in E;
      destruct (script_outcome _ _) as [[e|[]] f]].
  all: unfold CompliancePolicyGenerator.abort in E; cbn [fst snd] in E;
       injection E as Hr' Hw Hg; subst r w' g'.
  all: split;
    [unfold after; simpl; rewrite <- ?app_assoc;
     rewrite !in_app_iff; simpl; auto 10|].
  all: match goal with
       | |- context [since ?w0 ?W] =>
           assert (Hev : exists tl,
                     since w0 W =
                     completed [LoadConfig; ValidateConfig] ++ Entered LoadTemplate :: tl /\
                     (In (Returned LoadTemplate) tl -> In (Entered GenerateScript) tl))
       end.
  all: try (eexists; split; [read_events | simpl; intuition congruence]).
  all: destruct Hev as (tl & -> & Htl); split; [reflexivity|];
       simpl; intuition congruence.
Qed.


(** C8: when the template renders, [generate_script] returns as soon as
    the output path can be opened for writing and the text encoded; and
    whenever it returns, the file at the output path holds exactly the
    rendered text, whatever was there before, and every path that names
    another file finds what it found before. *)
Theorem generate_script_writes_rendered_text (w : world) (g : generator)
    (t : template) (text : string) :
  loaded g = Some t ->
  render t (config g) = inr text ->
  let r := generate_script (w, g) in
  let w' := fst (snd r) in
  (writable (output_file g) (fs w) = true -> encodable text = true ->
   fst r = inr tt) /\
  (fst r = inr tt ->
   file_content (output_file g) (fs w') = Some text /\
   forall q, locate (fs w) q <> locate (fs w) (output_file g) ->
             file_at q (fs w') = file_at q (fs w)).
Proof.
  intros Hl Hr. cbv zeta. rewrite generate_script_eq.
  unfold CompliancePolicyGenerator.script_outcome, writable. rewrite Hl, Hr.
  destruct (os_open_w (output_file g) (fs w)) as [e|f1] eqn:Ho.
  { split; intros; done. }
  destruct (os_open_w_then_write _ _ _ text Ho) as (f2 & Hw & Hc & Hloc & Hq).
  rewrite Hw. destruct (encodable text); simpl; split; try done.
  intros _. split; [done|]. intros q Hne. unfold file_at. rewrite Hloc. auto.
Qed.

(** C10: when the configuration file parses to the null value, the run
    loads it, [validate_config] raises [ValueError] after logging the shape
    error, no warning is logged, no later stage is entered and the run
    fails. *)
Theorem empty_document_rejected (w : world) (g : generator) (text : string) :
  readable_as (config_file g) (fs w) = Some text ->
  safe_load text = inr PyNone ->
  fst (validate_config (w, with_config PyNone g)) =
    inl (ValueError "Invalid configuration format") /\
  let r := run (w, g) in
  let w' := fst (snd r) in
  fst r = inl (SystemExit 1) /\
  since w w' = failed_at 1 /\
  fs w' = fs w /\
  log w' = log w ++
    [(INFO, "Configuration loaded from " +:+ config_file g);
     (ERROR, "Invalid configuration format. Expected a dictionary.");
     (ERROR, "Script generation failed: Invalid configuration format")].
Proof.
  intros Hr Hp. split.
  { rewrite validate_config_eq. done. }
  cbv zeta. pose proof (readable_as_Some _ _ _ Hr) as E0.
  rewrite run_eq, load_config_eq. cbv zeta. rewrite E0, Hp.
  rewrite validate_config_eq. simpl.
  split; [done|]. split; [read_events|]. split; [done|].
  by rewrite <- !app_assoc.
Qed.

End PipelineProperties.

(** ** The template path *)

Lemma length_append (a b : string) :
  String.length (a +:+ b) = String.length a + String.length b.
Proof.
  induction a as [|c a IH]; [done|].
  change (S (String.length (a +:+ b)) = S (String.length a + String.length b)).
  by rewrite IH.
Qed.

Lemma append_cancel_l (a x y : string) : a +:+ x = a +:+ y -> x = y.
Proof.
  induction a as [|c a IH]; intros H; [done|].
  change (String c (a +:+ x) = String c (a +:+ y)) in H. injection H. auto.
Qed.

Lemma append_cancel_r (b x y : string) : x +:+ b = y +:+ b -> x = y.
Proof.
  revert y. induction x as [|c x IH]; intros [|d y] H.
  - done.
  - change (b = String d (y +:+ b)) in H.
    apply (f_equal String.length) in H. simpl in H.
    rewrite (length_append y b) in H. exfalso. lia.
  - change (String c (x +:+ b) = b) in H.
    apply (f_equal String.length) in H. simpl in H.
    rewrite (length_append x b) in H. exfalso. lia.
  - change (String c (x +:+ b) = String d (y +:+ b)) in H.
    injection H as -> H. f_equal. auto.
Qed.

(** A text is cut in one way only at its first slash. *)
Lemma split_at_first_slash (p1 p2 r1 r2 : string) :
  contains_char slash p1 = false ->
  contains_char slash p2 = false ->
  p1 +:+ String slash r1 = p2 +:+ String slash r2 ->
  p1 = p2 /\ r1 = r2.
Proof.
  revert p2. induction p1 as [|c p1 IH]; intros [|d p2] H1 H2 H.
  - change (String slash r1 = String slash r2) in H. by injection H.
  - change (String slash r1 = String d (p2 +:+ String slash r2)) in H.
    injection H as <- _. simpl in H2. by rewrite ?Ascii.eqb_refl in H2.
  - change (String c (p1 +:+ String slash r1) = String slash r2) in H.
    injection H as -> _. simpl in H1. by rewrite ?Ascii.eqb_refl in H1.
  - change (String c (p1 +:+ String slash r1) = String d (p2 +:+ String slash r2)) in H.
    injection H as -> H. simpl in H1, H2.
    apply orb_false_iff in H1 as [_ H1]. apply orb_false_iff in H2 as [_ H2].
    destruct (IH _ H1 H2 H) as [-> ->]. done.
Qed.

(** C3, as stated, fails: two pairs that differ in both components can
    resolve to one path. *)
Lemma template_path_collision :
  ~ (forall p1 s1 p2 s2 : string,
       (p1, s1) <> (p2, s2) -> template_path p1 s1 <> template_path p2 s2).
Proof.
  intros H. apply (H "a/b" "c" "a" "b/c"); [discriminate|reflexivity].
Qed.

(** C3, as the code has it: the path is [templates/<platform>/<standard>.j2],
    a function of the pair alone; two pairs that differ resolve to
    different paths whenever they share a component or neither platform
    contains a slash. *)
Theorem template_path_injective (p1 s1 p2 s2 : string) :
  p1 = p2 \/ s1 = s2 \/
  (contains_char slash p1 = false /\ contains_char slash p2 = false) ->
  (p1, s1) <> (p2, s2) ->
  template_path p1 s1 = "templates/" +:+ p1 +:+ "/" +:+ s1 +:+ ".j2" /\
  template_path p1 s1 <> template_path p2 s2.
Proof.
  intros Hc Hne. split; [reflexivity|]. intros He. apply Hne.
  unfold template_path in He. apply append_cancel_l in He.
  destruct Hc as [->|[->|[H1 H2]]].
  - apply append_cancel_l, append_cancel_l, append_cancel_r in He. by subst.
  - apply append_cancel_r in He. by subst.
  - destruct (split_at_first_slash _ _ _ _ H1 H2 He) as [-> Hs].
    apply append_cancel_r in Hs. by subst.
Qed.

Lemma template_path_injective_witness :
  ((contains_char slash "linux" = false /\ contains_char slash "windows" = false) /\
   ("linux", "CIS") <> ("windows", "STIG")) /\
  template_path "linux" "CIS" <> template_path "windows" "STIG".
Proof.
  assert (H1 : contains_char slash "linux" = false /\
               contains_char slash "windows" = false) by (split; reflexivity).
  assert (H2 : ("linux", "CIS") <> ("windows", "STIG")) by discriminate.
  split; [exact (conj H1 H2)|].
  exact (proj2 (template_path_injective "linux" "CIS" "windows" "STIG"
                  (or_intror (or_intror H1)) H2)).
Defined.

(** ** Scenario A *)

Lemma scenario_A_render :
  MiniJinja.render ScenarioA.script_template ScenarioA.configuration =
  inr ("systemctl disable cups" +:+ String newline "").
Proof. vm_compute. reflexivity. Qed.

(** The loader opens [./] followed by the pieces of the name; for a name
    that is its own pieces this is the file the name itself names. *)
Lemma here_same_file (p : string) (f : filesystem) :
  relative p = true -> file_at ("./" +:+ p) f = file_at p f.
Proof. intros H. unfold file_at. by rewrite locate_here. Qed.

Lemma loader_reads_here (name p : string) (f : filesystem) (src : string) :
  template_file name = Some ("./" +:+ p) ->
  relative p = true ->
  readable_as p f = Some src ->
  loader_reads name f = Some src.
Proof.
  intros Ht Hrel. unfold loader_reads, isfile, readable_as, os_read.
  rewrite Ht, (here_same_file _ _ Hrel).
  destruct (file_at p f) as [[c [] ?|raw [] ?|]|]; try done.
  destruct (parent_of f p); done.
Qed.

(** C9: with the configuration of Scenario A, platform [linux], standard
    [CIS] and the template that emits [systemctl disable {{ service }}] for
    each service of each policy, the process ends with status 0 and the
    output file holds one line, [systemctl disable cups], and nothing
    else. *)
Theorem scenario_A_one_line
    (safe_load : string -> string + pyval)
    (compile : string -> string + MiniJinja.template)
    (encodable : string -> bool)
    (library_str : exn -> string)
    (w : world) (cfg out text src : string) :
  readable_as cfg (fs w) = Some text ->
  safe_load text = inr ScenarioA.configuration ->
  readable_as (template_path "linux" "CIS") (fs w) = Some src ->
  compile src = inr ScenarioA.script_template ->
  writable out (fs w) = true ->
  encodable ("systemctl disable cups" +:+ String newline "") = true ->
  let r := main MiniJinja.template safe_load compile MiniJinja.render encodable
             library_str "CIS" cfg out "linux" w in
  fst r = 0%Z /\
  exists written,
    file_content out (fs (snd r)) = Some written /\
    written = "systemctl disable cups" +:+ String newline "" /\
    lines written = ["systemctl disable cups"] /\
    count_lines "systemctl disable cups" written = 1.
Proof.
  intros Hc Hp Ht Hs Hw He. cbv zeta. rewrite main_eq. cbv zeta.
  set (g := init MiniJinja.template "CIS" cfg out "linux").
  pose proof (run_summary MiniJinja.template safe_load compile MiniJinja.render
                encodable library_str w g) as S.
  cbv zeta in S. simpl config_file in S. simpl platform in S.
  simpl compliance_standard in S.
  assert (Hl : loader_reads (template_path "linux" "CIS") (fs w) = Some src).
  { apply (loader_reads_here _ "templates/linux/CIS.j2");
      [vm_compute; reflexivity|reflexivity|exact Ht]. }
  rewrite Hc, Hl in S.
  unfold loaded_inputs in S. rewrite Hp, Hs in S. simpl isinstance_dict in S.
  cbv iota in S. destruct S as [_ S].
  unfold script_outcome, writable in *. simpl loaded in S. simpl config in S.
  simpl output_file in S.
  cbv beta iota in S. rewrite scenario_A_render, He in S.
  destruct (os_open_w out (fs w)) as [e|f1] eqn:Ho; [done|].
  destruct (os_open_w_then_write _ _ _ ("systemctl disable cups" +:+ String newline "") Ho)
    as (f2 & Hx & Hy & _).
  rewrite Hx in S. destruct S as (Hr & Hf & _).
  cbn [fst snd]. rewrite Hr, Hf.
  split; [done|]. eexists. split; [exact Hy|]. repeat split.
Qed.

(** ** Two runs *)



(** ** Concrete runs *)

Lemma scenario_A_one_line_witness :
  (readable_as "config.yaml" (fs (boot Sample.disk)) = Some ScenarioA.config_text /\
   Sample.safe_load ScenarioA.config_text = inr ScenarioA.configuration /\
   readable_as (template_path "linux" "CIS") (fs (boot Sample.disk)) =
     Some ScenarioA.template_source /\
   Sample.compile ScenarioA.template_source = inr ScenarioA.script_template /\
   writable "hardening.sh" (fs (boot Sample.disk)) = true /\
   Sample.encodable ("systemctl disable cups" +:+ String newline "") = true) /\
  fst (Sample.main "CIS" "config.yaml" "hardening.sh" "linux" (boot Sample.disk)) = 0%Z.
Proof.
  assert (H1 : readable_as "config.yaml" (fs (boot Sample.disk)) =
               Some ScenarioA.config_text) by (vm_compute; reflexivity).
  assert (H2 : Sample.safe_load ScenarioA.config_text = inr ScenarioA.configuration)
    by (vm_compute; reflexivity).
  assert (H3 : readable_as (template_path "linux" "CIS") (fs (boot Sample.disk)) =
               Some ScenarioA.template_source) by (vm_compute; reflexivity).
  assert (H4 : Sample.compile ScenarioA.template_source = inr ScenarioA.script_template)
    by (vm_compute; reflexivity).
  assert (H5 : writable "hardening.sh" (fs (boot Sample.disk)) = true)
    by (vm_compute; reflexivity).
  assert (H6 : Sample.encodable ("systemctl disable cups" +:+ String newline "") = true)
    by (vm_compute; reflexivity).
  split; [repeat split; assumption|].
  exact (proj1 (scenario_A_one_line Sample.safe_load Sample.compile Sample.encodable
                  Sample.library_str
                  (boot Sample.disk) "config.yaml" "hardening.sh" _ _
                  H1 H2 H3 H4 H5 H6)).
Defined.



Lemma failure_before_write_leaves_output_untouched_witness :
  render_raises MiniJinja.render
    (snd (snd (Sample.run
                 (boot Sample.disk,
                  Sample.make "deep" "demo.yaml" "hardening.sh" "linux")))) = true /\
  fs (fst (snd (Sample.run
                  (boot Sample.disk,
                   Sample.make "deep" "demo.yaml" "hardening.sh" "linux")))) =
  fs (boot Sample.disk).
Proof.
  assert (H : render_raises MiniJinja.render
                (snd (snd (Sample.run
                             (boot Sample.disk,
                              Sample.make "deep" "demo.yaml" "hardening.sh" "linux")))) =
              true) by (vm_compute; reflexivity).
  split; [exact H|].
  exact (proj1 (proj2 (failure_before_write_leaves_output_untouched
                         MiniJinja.template Sample.safe_load Sample.compile
                         MiniJinja.render Sample.encodable Sample.library_str
                         (boot Sample.disk)
                         (Sample.make "deep" "demo.yaml" "hardening.sh" "linux")
                         (or_intror H)))).
Defined.

Lemma missing_policies_warns_and_proceeds_witness :
  dict_contains "policies" (PyDict [(PyStr "name", PyStr "demo")]) = false /\
  In (WARNING, missing_policies_warning)
    (log (fst (snd (Sample.run
                      (boot Sample.disk,
                       Sample.make "echo" "demo.yaml" "new.sh" "linux"))))).
Proof.
  assert (H : dict_contains "policies" (PyDict [(PyStr "name", PyStr "demo")]) = false)
    by reflexivity.
  split; [exact H|].
  assert (H1 : readable_as
                 (config_file (Sample.make "echo" "demo.yaml" "new.sh" "linux"))
                 (fs (boot Sample.disk)) = Some "name: demo")
    by (vm_compute; reflexivity).
  assert (H2 : Sample.safe_load "name: demo" = inr (PyDict [(PyStr "name", PyStr "demo")]))
    by (vm_compute; reflexivity).
  exact (proj1 (proj2 (missing_policies_warns_and_proceeds
                         MiniJinja.template Sample.safe_load Sample.compile
                         MiniJinja.render Sample.encodable Sample.library_str
                         (boot Sample.disk)
                         (Sample.make "echo" "demo.yaml" "new.sh" "linux")
                         [(PyStr "name", PyStr "demo")] H) _ H1 H2)).
Defined.

Lemma generate_script_writes_rendered_text_witness :
  (MiniJinja.render ScenarioA.script_template ScenarioA.configuration =
     inr ("systemctl disable cups" +:+ String newline "") /\
   writable "hardening.sh" (fs (boot Sample.disk)) = true /\
   Sample.encodable ("systemctl disable cups" +:+ String newline "") = true) /\
  fst (generate_script MiniJinja.template MiniJinja.render Sample.encodable
         Sample.library_str
         (boot Sample.disk,
          with_template ScenarioA.script_template
            (with_config ScenarioA.configuration
               (Sample.make "CIS" "config.yaml" "hardening.sh" "linux")))) = inr tt.
Proof.
  assert (H1 : MiniJinja.render ScenarioA.script_template ScenarioA.configuration =
               inr ("systemctl disable cups" +:+ String newline ""))
    by (vm_compute; reflexivity).
  assert (H2 : writable "hardening.sh" (fs (boot Sample.disk)) = true)
    by (vm_compute; reflexivity).
  assert (H3 : Sample.encodable ("systemctl disable cups" +:+ String newline "") = true)
    by (vm_compute; reflexivity).
  split; [repeat split; assumption|].
  exact (proj1 (generate_script_writes_rendered_text
                  MiniJinja.template MiniJinja.render Sample.encodable
                  Sample.library_str (boot Sample.disk)
                  (with_template ScenarioA.script_template
                     (with_config ScenarioA.configuration
                        (Sample.make "CIS" "config.yaml" "hardening.sh" "linux")))
                  ScenarioA.script_template _ eq_refl H1) H2 H3).
Defined.

Lemma empty_document_rejected_witness :
  (readable_as "empty.yaml" (fs (boot Sample.disk)) = Some "" /\
   Sample.safe_load "" = inr PyNone) /\
  fst (Sample.run (boot Sample.disk,
                   Sample.make "CIS" "empty.yaml" "hardening.sh" "linux")) =
  inl (SystemExit 1).
Proof.
  assert (H1 : readable_as
                 (config_file (Sample.make "CIS" "empty.yaml" "hardening.sh" "linux"))
                 (fs (boot Sample.disk)) = Some "") by (vm_compute; reflexivity).
  assert (H2 : Sample.safe_load "" = inr PyNone) by (vm_compute; reflexivity).
  split; [exact (conj H1 H2)|].
  exact (proj1 (proj2 (empty_document_rejected
                         MiniJinja.template Sample.safe_load Sample.compile
                         MiniJinja.render Sample.encodable Sample.library_str
                         (boot Sample.disk)
                         (Sample.make "CIS" "empty.yaml" "hardening.sh" "linux")
                         "" H1 H2))).
Defined.

(** * Further properties of the stages, of [run] and of [main] *)


(** * Further properties of the stages, of [run] and of [main] *)

Ltac read_log :=
  apply logged_app; unfold after, CompliancePolicyGenerator.abort; simpl;
  rewrite <- ?app_assoc; reflexivity.

Ltac read_trace :=
  apply since_app; unfold after, CompliancePolicyGenerator.abort; simpl;
  rewrite <- ?app_assoc; reflexivity.



Section FurtherProperties.

Variable template : Type.
Variable safe_load : string -> string + pyval.
Variable compile : string -> string + template.
Variable render : template -> pyval -> string + string.
Variable encodable : string -> bool.
Variable library_str : exn -> string.

Abbreviation generator := (generator template).
Abbreviation load_config := (load_config template safe_load library_str).
Abbreviation validate_config := (validate_config template).
Abbreviation load_template := (load_template template compile library_str).
Abbreviation generate_script := (generate_script template render encodable library_str).
Abbreviation run := (run template safe_load compile render encodable library_str).
Abbreviation main := (main template safe_load compile render encodable library_str).
Abbreviation script_outcome := (script_outcome template render encodable).
Abbreviation loaded_inputs := (loaded_inputs template safe_load compile).
Abbreviation first_exception :=
  (first_exception safe_load compile render encodable library_str).
Abbreviation init := (init template).
Abbreviation str_exn := (str_exn library_str).

(** X1: [load_config] returns exactly when the file is read and the parser
    accepts its text; the object then holds the parsed value and one INFO
    record is logged.  When it raises, the object is as it was: a
    configuration loaded earlier stays. *)
Theorem load_config_returns_iff_parsed (w : world) (g : generator) :
  let r := load_config (w, g) in
  (fst r = inr tt <->
   exists text v,
     readable_as (config_file g) (fs w) = Some text /\ safe_load text = inr v) /\
  (forall text v,
     readable_as (config_file g) (fs w) = Some text ->
     safe_load text = inr v ->
     snd (snd r) = with_config v g /\
     logged w (fst (snd r)) =
       [(INFO, "Configuration loaded from " +:+ config_file g)]) /\
  (forall e, fst r = inl e -> snd (snd r) = g).
Proof.
  cbv zeta. rewrite load_config_eq. cbv zeta. unfold readable_as.
  destruct (os_read (config_file g) (fs w)) as [e|text];
    [|destruct (safe_load text) as [d|v] eqn:Ep]; cbn [fst snd].
  all: split; [split; [intros H; simplify_eq|intros (text' & v' & H1 & H2); simplify_eq]|].
  all: try (by eauto); try congruence.
  all: split; [intros text' v' H1 H2; simplify_eq|intros e' H; simplify_eq; done].
  all: try congruence.
  assert (v' = v) as -> by congruence. split; [done|]. read_log.
Qed.

(** X2: [load_template] never changes the file system.  It raises
    [TemplateNotFound], logged as such, exactly when the loader finds no
    regular file for the template path: the name has a [..] piece, or
    nothing or a directory is at the file name made of its pieces.  Any
    other failure is logged as an error of loading with the text of the
    exception.  Whatever it raises, the object is left as it was.  When
    the source is read and compiles, it returns, logs one INFO record and
    the object holds the compiled template. *)
Theorem load_template_outcomes (w : world) (g : generator) :
  let path := template_path (platform g) (compliance_standard g) in
  let r := load_template (w, g) in
  let w' := fst (snd r) in
  fs w' = fs w /\
  (fst r = inl (TemplateNotFound path) <-> loader_finds path (fs w) = false) /\
  (loader_finds path (fs w) = false ->
   logged w w' = [(ERROR, "Template not found: " +:+ path)]) /\
  (forall e, fst r = inl e ->
     snd (snd r) = g /\
     (e <> TemplateNotFound path ->
      logged w w' = [(ERROR, "Error loading template: " +:+ str_exn e)])) /\
  (forall src t,
     loader_reads path (fs w) = Some src -> compile src = inr t ->
     fst r = inr tt /\
     snd (snd r) = with_template t g /\
     logged w w' = [(INFO, "Template loaded from " +:+ path)]).
Proof.
  cbv zeta. rewrite load_template_eq. cbv zeta.
  rewrite get_template_eq. cbn [fst snd].
  unfold loader_reads, loader_finds, readable_as.
  destruct (template_file _) as [filename|]; cbn [fst snd].
  2: { split; [done|]. split; [done|]. split; [intros _; read_log|].
       split; [|done]. intros e H. split; [done|]. intros Hne. by simplify_eq. }
  destruct (isfile filename (fs w)) eqn:Ef; cbn [fst snd].
  2: { split; [done|]. split; [done|]. split; [intros _; read_log|].
       split; [|done]. intros e H. split; [done|]. intros Hne. by simplify_eq. }
  destruct (os_read filename (fs w)) as [e|src] eqn:Er; cbn [fst snd].
  { split; [done|].
    split; [split; [|done];
            destruct (os_read_isfile _ _ _ Ef Er) as [->|[raw ->]]; done|].
    split; [done|]. split; [|done].
    intros e' H. split; [done|]. intros _. simplify_eq.
    destruct (os_read_isfile _ _ _ Ef Er) as [->|[raw ->]]; read_log. }
  destruct (compile src) as [d|t] eqn:Ec; cbn [fst snd].
  - split; [done|]. split; [done|]. split; [done|].
    split; [|intros src' t' H1 H2; simplify_eq; congruence].
    intros e' H. split; [done|]. intros _. simplify_eq. read_log.
  - split; [done|]. split; [done|]. split; [done|]. split; [done|].
    intros src' t' H1 H2. simplify_eq.
    assert (t' = t) as -> by congruence.
    split; [done|]. split; [done|]. read_log.
Qed.

Lemma script_outcome_frame (f0 f : filesystem) (g : generator) (o : exn + unit) :
  script_outcome f0 g = (o, f) ->
  locate f = locate f0 /\
  parent_of f = parent_of f0 /\
  forall k, k <> locate f0 (output_file g) -> entries f !! k = entries f0 !! k.
Proof.
  assert (Hp : forall p f1 f2, os_open_w p f1 = inr f2 -> parent_of f2 = parent_of f1).
  { unfold os_open_w, set_entry. intros p f1 f2 H.
    repeat case_match; by simplify_eq. }
  assert (Hp' : forall p x f1 f2, os_write p x f1 = inr f2 -> parent_of f2 = parent_of f1).
  { unfold os_write, set_entry. intros p x f1 f2 H.
    repeat case_match; by simplify_eq. }
  unfold CompliancePolicyGenerator.script_outcome.
  destruct (loaded g) as [t|]; [|intros H; by simplify_eq].
  destruct (render t (config g)) as [d|text]; [intros H; by simplify_eq|].
  destruct (os_open_w (output_file g) f0) as [e'|f1] eqn:Ho;
    [intros H; by simplify_eq|].
  destruct (os_open_w_then_write _ _ _ text Ho) as (f2 & Hx & _ & Hl2 & Hq2).
  destruct (os_open_w_truncates _ _ _ Ho) as (_ & Hl1 & Hq1).
  rewrite Hx. destruct (encodable text); intros H; simplify_eq.
  - split; [done|]. split; [|done].
    rewrite (Hp' _ _ _ _ Hx). by apply (Hp (output_file g)).
  - split; [done|]. split; [|done]. by apply (Hp (output_file g)).
Qed.

(** X3: whenever [generate_script] raises, it has logged exactly one ERROR
    record carrying the text of the exception it raises again, and it has
    left the object as it was; every path that names a file other than the
    output file finds what it found before. *)
Theorem generate_script_failure_is_logged (w : world) (g : generator) (e : exn) :
  fst (generate_script (w, g)) = inl e ->
  let r := generate_script (w, g) in
  let w' := fst (snd r) in
  logged w w' = [(ERROR, "Error generating script: " +:+ str_exn e)] /\
  snd (snd r) = g /\
  forall q, locate (fs w) q <> locate (fs w) (output_file g) ->
            file_at q (fs w') = file_at q (fs w).
Proof.
  cbv zeta. rewrite generate_script_eq.
  destruct (script_outcome (fs w) g) as [[e0|[]] f] eqn:Eo; cbn [fst snd];
    intros H; simplify_eq.
  destruct (script_outcome_frame _ _ _ _ Eo) as (Hl & _ & Hq).
  split; [read_log|]. split; [done|].
  intros q Hne. unfold file_at. cbn [fs after]. rewrite Hl. auto.
Qed.

(** X4: when the rendered text cannot be encoded, the output path has
    already been opened for writing: [generate_script] raises
    [UnicodeEncodeError] and the output file is left empty, whatever it
    held before. *)
Theorem write_failure_empties_output (w : world) (g : generator)
    (t : template) (text : string) :
  loaded g = Some t ->
  render t (config g) = inr text ->
  writable (output_file g) (fs w) = true ->
  encodable text = false ->
  let r := generate_script (w, g) in
  fst r = inl (UnicodeEncodeError text) /\
  file_content (output_file g) (fs (fst (snd r))) = Some "".
Proof.
  intros Hl Hr Hw He. cbv zeta. rewrite generate_script_eq.
  unfold CompliancePolicyGenerator.script_outcome, writable in *.
  rewrite Hl, Hr, He.
  destruct (os_open_w (output_file g) (fs w)) as [e'|f1] eqn:Ho; [done|].
  destruct (os_open_w_truncates _ _ _ Ho) as [Hy _]. done.
Qed.

(** X5: a run, whether it succeeds or fails, changes no file other than the
    one the output path names: every path that names another file finds
    what it found before. *)
Theorem run_touches_only_output (w : world) (g : generator) (q : string) :
  locate (fs w) q <> locate (fs w) (output_file g) ->
  file_at q (fs (fst (snd (run (w, g))))) = file_at q (fs w).
Proof.
  intros Hq.
  pose proof (run_summary template safe_load compile render encodable library_str
                w g) as S.
  cbv zeta in S. destruct (loaded_inputs _ _) as [[v t]|].
  - destruct S as [_ S].
    destruct (script_outcome (fs w) _) as [o f] eqn:Eo.
    destruct (script_outcome_frame _ _ _ _ Eo) as (Hl & _ & Hf).
    simpl output_file in Hf.
    destruct o as [e|u]; destruct S as (_ & -> & _);
      unfold file_at; rewrite Hl; auto.
  - destruct S as (_ & -> & _). done.
Qed.

(** X7: the handler of [main] never fires: [main] leaves the world exactly
    as [run] left it, with status 0 when [run] returned and status 1 when
    [run] left through [sys.exit(1)]; no other status occurs. *)
Theorem main_handler_never_fires standard cfg out plat (w : world) :
  let m := main standard cfg out plat w in
  let r := run (w, init standard cfg out plat) in
  snd m = fst (snd r) /\
  ((fst m = 0%Z /\ fst r = inr tt) \/ (fst m = 1%Z /\ fst r = inl (SystemExit 1))).
Proof.
  cbv zeta. rewrite main_eq. cbv zeta. cbn [fst snd]. split; [done|].
  destruct (run_result template safe_load compile render encodable library_str
              (w, init standard cfg out plat)) as [-> | ->]; auto.
Qed.

(** Every stage only appends to the log. *)
Lemma load_config_log (w : world) (g : generator) :
  exists l, log (fst (snd (load_config (w, g)))) = log w ++ l.
Proof.
  rewrite load_config_eq. cbv zeta.
  repeat case_match; cbn [fst snd]; eexists; unfold after; simpl; reflexivity.
Qed.

Lemma validate_config_log (w : world) (g : generator) :
  exists l, log (fst (snd (validate_config (w, g)))) = log w ++ l.
Proof.
  rewrite validate_config_eq.
  repeat case_match; cbn [fst snd]; eexists; unfold after; simpl; reflexivity.
Qed.

Lemma load_template_log (w : world) (g : generator) :
  exists l, log (fst (snd (load_template (w, g)))) = log w ++ l.
Proof.
  rewrite load_template_eq. cbv zeta.
  destruct (fst (get_template _ _ _ _)); cbn [fst snd]; eexists;
    unfold after; simpl; reflexivity.
Qed.

Lemma generate_script_log (w : world) (g : generator) :
  exists l, log (fst (snd (generate_script (w, g)))) = log w ++ l.
Proof.
  rewrite generate_script_eq.
  destruct (script_outcome _ _) as [[e|[]] f]; cbn [fst snd]; eexists;
    unfold after; simpl; reflexivity.
Qed.

Lemma abort_last (w w1 : world) (g1 : generator) (e : exn) (l : list log_record) :
  log w1 = log w ++ l ->
  last (logged w (fst (snd (abort library_str e (w1, g1))))) =
  Some (ERROR, "Script generation failed: " +:+ str_exn e).
Proof.
  intros H. erewrite logged_app; [apply last_snoc|].
  unfold CompliancePolicyGenerator.abort. cbn [fst snd]. simpl.
  rewrite H, <- app_assoc. reflexivity.
Qed.

(** X8: what a run logs.  When no stage raises, the run returns and has
    logged the three INFO records of its stages, with the WARNING between
    the first two when the configuration has no ['policies'] key, and
    nothing else.  When a stage raises, the run fails and its last record
    is the ERROR record of [run] carrying the text of the exception that
    this first failing stage raised. *)
Theorem run_log_shape (w : world) (g : generator) :
  let r := run (w, g) in
  let w' := fst (snd r) in
  let g' := snd (snd r) in
  match first_exception (w, g) with
  | None =>
      fst r = inr tt /\
      logged w w' =
        [(INFO, "Configuration loaded from " +:+ config_file g)] ++
        (if dict_contains "policies" (config g') then []
         else [(WARNING, missing_policies_warning)]) ++
        [(INFO, "Template loaded from " +:+
                template_path (platform g) (compliance_standard g));
         (INFO, "Script generated successfully: " +:+ output_file g)]
  | Some e =>
      fst r = inl (SystemExit 1) /\
      last (logged w w') = Some (ERROR, "Script generation failed: " +:+ str_exn e)
  end.
Proof.
  cbv zeta. unfold CompliancePolicyGenerator.first_exception.
  rewrite run_eq.
  destruct (load_config_log w g) as [l1 L1].
  destruct (load_config (w, g)) as [[e1|[]] [w1 g1]] eqn:E1; cbn [fst snd] in L1.
  { split; [done|]. by apply abort_last with l1. }
  destruct (validate_config_log w1 g1) as [l2 L2].
  destruct (validate_config (w1, g1)) as [[e2|[]] [w2 g2]] eqn:E2; cbn [fst snd] in L2.
  { split; [done|]. apply abort_last with (l1 ++ l2). by rewrite L2, L1, app_assoc. }
  destruct (load_template_log w2 g2) as [l3 L3].
  destruct (load_template (w2, g2)) as [[e3|[]] [w3 g3]] eqn:E3; cbn [fst snd] in L3.
  { split; [done|]. apply abort_last with (l1 ++ l2 ++ l3).
    by rewrite L3, L2, L1, !app_assoc. }
  destruct (generate_script_log w3 g3) as [l4 L4].
  destruct (generate_script (w3, g3)) as [[e4|[]] [w4 g4]] eqn:E4; cbn [fst snd] in L4.
  { split; [done|]. apply abort_last with (l1 ++ l2 ++ l3 ++ l4).
    by rewrite L4, L3, L2, L1, !app_assoc. }
  clear l1 l2 l3 l4 L1 L2 L3 L4. cbn [fst snd]. split; [done|].
  rewrite load_config_eq in E1. cbv zeta in E1.
  destruct (os_read (config_file g) (fs w)) as [e|text]; [by simplify_eq|].
  destruct (safe_load text) as [d|v]; [by simplify_eq|].
  injection E1 as Hw1 Hg1; subst w1 g1.
  rewrite validate_config_eq in E2. simpl config in E2.
  destruct (isinstance_dict v); [|by simplify_eq].
  injection E2 as Hw2 Hg2; subst w2 g2.
  rewrite load_template_eq in E3. cbv zeta in E3.
  destruct (fst (get_template _ _ _ _)) as [e|t]; [by simplify_eq|].
  injection E3 as Hw3 Hg3; subst w3 g3.
  rewrite generate_script_eq in E4.
  destruct (script_outcome _ _) as [[e|[]] f]; [by simplify_eq|].
  injection E4 as Hw4 Hg4; subst w4 g4.
  simpl config. simpl output_file. simpl platform. simpl compliance_standard.
  erewrite logged_app;
    [|unfold after; simpl; rewrite <- ?app_assoc; reflexivity].
  repeat case_match; reflexivity.
Qed.


(** X10: when a mapping has been loaded and the loader finds no regular
    file for the template path, the process ends with status 1 after
    [load_template]; the log ends with the template-not-found record of
    [load_template], which names the path, and the record of [run], which
    carries the text of the loader's exception; no file is created or
    changed. *)
Theorem missing_template_run standard cfg out plat (w : world)
    (text : string) (v : pyval) :
  readable_as cfg (fs w) = Some text ->
  safe_load text = inr v ->
  isinstance_dict v = true ->
  loader_finds (template_path plat standard) (fs w) = false ->
  let m := main standard cfg out plat w in
  fst m = 1%Z /\
  fs (snd m) = fs w /\
  since w (snd m) = failed_at 2 /\
  logged w (snd m) =
    [(INFO, "Configuration loaded from " +:+ cfg)] ++
    (if dict_contains "policies" v then []
     else [(WARNING, missing_policies_warning)]) ++
    [(ERROR, "Template not found: " +:+ template_path plat standard);
     (ERROR, "Script generation failed: " +:+
             str_exn (TemplateNotFound (template_path plat standard)))].
Proof.
  intros Hr Hp Hd Ht. cbv zeta. rewrite main_eq. cbv zeta.
  pose proof (readable_as_Some _ _ _ Hr) as E0.
  destruct (run _) as [r [w' g']] eqn:E. cbn [fst snd].
  rewrite run_eq, load_config_eq in E. cbv zeta in E. simpl config_file in E.
  rewrite E0, Hp in E. rewrite validate_config_eq in E. simpl config in E.
  rewrite Hd in E. rewrite load_template_eq in E. cbv zeta in E.
  rewrite get_template_eq in E. cbn [fst snd fs after] in E.
  simpl platform in E. simpl compliance_standard in E. rewrite Ht in E.
  unfold CompliancePolicyGenerator.abort in E; cbn [fst snd] in E.
  injection E as Hr' Hw Hg; subst r w' g'.
  split; [done|]; split; [done|]; split; [read_trace|].
  erewrite logged_app;
    [|unfold after; simpl; rewrite <- ?app_assoc; reflexivity].
  destruct (dict_contains "policies" v); reflexivity.
Qed.

(** X11: a mapping that has a ['policies'] key passes [validate_config]
    whatever is stored under the key: the method returns, logs nothing and
    leaves the object and the file system as they were. *)
Theorem validate_config_silent_with_policies (w : world) (g : generator)
    (before behind : list (pyval * pyval)) (v : pyval) :
  config g = PyDict (before ++ (PyStr "policies", v) :: behind) ->
  let r := validate_config (w, g) in
  fst r = inr tt /\
  log (fst (snd r)) = log w /\
  fs (fst (snd r)) = fs w /\
  snd (snd r) = g.
Proof.
  intros Hc. cbv zeta. rewrite validate_config_eq, Hc.
  assert (Hk : dict_contains "policies"
                 (PyDict (before ++ (PyStr "policies", v) :: behind)) = true).
  { simpl. rewrite existsb_app. simpl. by rewrite orb_true_r. }
  simpl isinstance_dict. rewrite Hk. cbn [fst snd after log fs].
  by rewrite app_nil_r.
Qed.

(** X12: the process ends with status 0 exactly when the configuration
    file is read and parses to a mapping, the loader reads the template
    source and it compiles, the template renders, the output path opens
    for writing and the text can be encoded; the output file then holds
    the text rendered from that configuration and that template. *)
Theorem main_succeeds_iff standard cfg out plat (w : world) :
  let m := main standard cfg out plat w in
  (fst m = 0%Z ->
   exists text v src t rendered,
     readable_as cfg (fs w) = Some text /\
     safe_load text = inr v /\
     isinstance_dict v = true /\
     loader_reads (template_path plat standard) (fs w) = Some src /\
     compile src = inr t /\
     render t v = inr rendered /\
     writable out (fs w) = true /\
     encodable rendered = true /\
     file_content out (fs (snd m)) = Some rendered) /\
  (forall text v src t rendered,
     readable_as cfg (fs w) = Some text ->
     safe_load text = inr v ->
     isinstance_dict v = true ->
     loader_reads (template_path plat standard) (fs w) = Some src ->
     compile src = inr t ->
     render t v = inr rendered ->
     writable out (fs w) = true ->
     encodable rendered = true ->
     fst m = 0%Z /\ file_content out (fs (snd m)) = Some rendered).
Proof.
  cbv zeta. rewrite main_eq. cbv zeta. cbn [fst snd].
  set (g := init standard cfg out plat).
  pose proof (run_summary template safe_load compile render encodable library_str
                w g) as S.
  cbv zeta in S. simpl config_file in S. simpl platform in S.
  simpl compliance_standard in S.
  unfold CompliancePolicyGenerator.loaded_inputs,
    CompliancePolicyGenerator.script_outcome, writable in *.
  simpl loaded in S. simpl config in S. simpl output_file in S.
  split.
  - intros H0.
    destruct (readable_as cfg (fs w)) as [text|];
      [|destruct S as (Hr & _); by rewrite Hr in H0].
    destruct (safe_load text) as [d|v] eqn:Ep;
      [destruct S as (Hr & _); by rewrite Hr in H0|].
    destruct (isinstance_dict v) eqn:Ed;
      [|destruct S as (Hr & _); by rewrite Hr in H0].
    destruct (loader_reads (template_path plat standard) (fs w)) as [src|];
      [|destruct S as (Hr & _); by rewrite Hr in H0].
    destruct (compile src) as [d|t] eqn:Ec;
      [destruct S as (Hr & _); by rewrite Hr in H0|].
    destruct S as [_ S]. cbv beta iota in S.
    destruct (render t v) as [d|rendered] eqn:Er;
      [destruct S as (Hr & _); by rewrite Hr in H0|].
    destruct (os_open_w out (fs w)) as [e|f1] eqn:Ho;
      [destruct S as (Hr & _); by rewrite Hr in H0|].
    destruct (os_open_w_then_write _ _ _ rendered Ho) as (f2 & Hx & Hy & _).
    rewrite Hx in S.
    destruct (encodable rendered) eqn:Ee;
      [|destruct S as (Hr & _); by rewrite Hr in H0].
    destruct S as (_ & -> & _).
    exists text, v, src, t, rendered. repeat split; done.
  - intros text v src t rendered Hc Hp Hd Ht Hs Hr Hw He.
    rewrite Hc, Hp, Hd, Ht, Hs in S. destruct S as [_ S]. cbv beta iota in S.
    rewrite Hr, He in S.
    destruct (os_open_w out (fs w)) as [e|f1] eqn:Ho; [done|].
    destruct (os_open_w_then_write _ _ _ rendered Ho) as (f2 & Hx & Hy & _).
    rewrite Hx in S. destruct S as (-> & -> & _). done.
Qed.

End FurtherProperties.



(** ** Concrete runs for the further properties *)

Lemma load_config_returns_iff_parsed_witness :
  (readable_as "./demo.yaml" (fs (boot Sample.disk)) = Some "name: demo" /\
   Sample.safe_load "name: demo" = inr (PyDict [(PyStr "name", PyStr "demo")])) /\
  snd (snd (load_config MiniJinja.template Sample.safe_load Sample.library_str
              (boot Sample.disk, Sample.make "echo" "./demo.yaml" "new.sh" "linux"))) =
  with_config (PyDict [(PyStr "name", PyStr "demo")])
    (Sample.make "echo" "./demo.yaml" "new.sh" "linux").
Proof.
  assert (H1 : readable_as "./demo.yaml" (fs (boot Sample.disk)) = Some "name: demo")
    by (vm_compute; reflexivity).
  assert (H2 : Sample.safe_load "name: demo" =
               inr (PyDict [(PyStr "name", PyStr "demo")]))
    by (vm_compute; reflexivity).
  split; [exact (conj H1 H2)|].
  exact (proj1 (proj1 (proj2 (load_config_returns_iff_parsed
                                MiniJinja.template Sample.safe_load Sample.library_str
                                (boot Sample.disk)
                                (Sample.make "echo" "./demo.yaml" "new.sh" "linux")))
                  _ _ H1 H2)).
Defined.

(** The platform [linux/../linux] names the directory of the CIS template
    to the operating system, but not to the loader. *)
Lemma load_template_outcomes_witness :
  loader_finds (template_path "linux/../linux" "CIS") (fs (boot Sample.disk)) = false /\
  logged (boot Sample.disk)
    (fst (snd (load_template MiniJinja.template Sample.compile Sample.library_str
                 (boot Sample.disk,
                  Sample.make "CIS" "demo.yaml" "new.sh" "linux/../linux")))) =
  [(ERROR, "Template not found: " +:+ template_path "linux/../linux" "CIS")].
Proof.
  assert (H : loader_finds (template_path "linux/../linux" "CIS")
                (fs (boot Sample.disk)) = false) by (vm_compute; reflexivity).
  split; [exact H|].
  exact (proj1 (proj2 (proj2 (load_template_outcomes
                                MiniJinja.template Sample.compile Sample.library_str
                                (boot Sample.disk)
                                (Sample.make "CIS" "demo.yaml" "new.sh" "linux/../linux"))))
           H).
Defined.

Lemma generate_script_failure_is_logged_witness :
  fst (generate_script MiniJinja.template MiniJinja.render Sample.encodable
         Sample.library_str
         (boot Sample.disk, Sample.make "CIS" "config.yaml" "hardening.sh" "linux")) =
    inl (AttributeError "'NoneType' object has no attribute 'render'") /\
  logged (boot Sample.disk)
    (fst (snd (generate_script MiniJinja.template MiniJinja.render Sample.encodable
                 Sample.library_str
                 (boot Sample.disk,
                  Sample.make "CIS" "config.yaml" "hardening.sh" "linux")))) =
  [(ERROR, "Error generating script: " +:+
           str_exn Sample.library_str
             (AttributeError "'NoneType' object has no attribute 'render'"))].
Proof.
  assert (H : fst (generate_script MiniJinja.template MiniJinja.render Sample.encodable
                     Sample.library_str
                     (boot Sample.disk,
                      Sample.make "CIS" "config.yaml" "hardening.sh" "linux")) =
              inl (AttributeError "'NoneType' object has no attribute 'render'"))
    by (vm_compute; reflexivity).
  split; [exact H|].
  exact (proj1 (generate_script_failure_is_logged
                  MiniJinja.template MiniJinja.render Sample.encodable
                  Sample.library_str (boot Sample.disk)
                  (Sample.make "CIS" "config.yaml" "hardening.sh" "linux") _ H)).
Defined.

Lemma write_failure_empties_output_witness :
  (MiniJinja.render
     [MiniJinja.NOutput (MiniJinja.EAttr (MiniJinja.EVar "config") "name")]
     (PyDict [(PyStr "name", PyStr (String (ascii_of_nat 233) ""))]) =
     inr (String (ascii_of_nat 233) "") /\
   writable "hardening.sh" (fs (boot Sample.disk)) = true /\
   Sample.encodable (String (ascii_of_nat 233) "") = false) /\
  file_content "hardening.sh"
    (fs (fst (snd (generate_script MiniJinja.template MiniJinja.render Sample.encodable
                     Sample.library_str
                     (boot Sample.disk,
                      with_template
                        [MiniJinja.NOutput
                           (MiniJinja.EAttr (MiniJinja.EVar "config") "name")]
                        (with_config
                           (PyDict [(PyStr "name", PyStr (String (ascii_of_nat 233) ""))])
                           (Sample.make "echo" "demo.yaml" "hardening.sh" "linux"))))))) =
  Some "".
Proof.
  assert (H1 : MiniJinja.render
                 [MiniJinja.NOutput (MiniJinja.EAttr (MiniJinja.EVar "config") "name")]
                 (PyDict [(PyStr "name", PyStr (String (ascii_of_nat 233) ""))]) =
               inr (String (ascii_of_nat 233) "")) by (vm_compute; reflexivity).
  assert (H2 : writable "hardening.sh" (fs (boot Sample.disk)) = true)
    by (vm_compute; reflexivity).
  assert (H3 : Sample.encodable (String (ascii_of_nat 233) "") = false)
    by (vm_compute; reflexivity).
  split; [repeat split; assumption|].
  exact (proj2 (write_failure_empties_output
                  MiniJinja.template MiniJinja.render Sample.encodable
                  Sample.library_str (boot Sample.disk)
                  (with_template
                     [MiniJinja.NOutput
                        (MiniJinja.EAttr (MiniJinja.EVar "config") "name")]
                     (with_config
                        (PyDict [(PyStr "name", PyStr (String (ascii_of_nat 233) ""))])
                        (Sample.make "echo" "demo.yaml" "hardening.sh" "linux")))
                  _ _ eq_refl H1 H2 H3)).
Defined.

Lemma run_touches_only_output_witness :
  locate (fs (boot Sample.disk)) "./config.yaml" <>
  locate (fs (boot Sample.disk)) "hardening.sh" /\
  file_at "./config.yaml"
    (fs (fst (snd (Sample.run
                     (boot Sample.disk,
                      Sample.make "CIS" "config.yaml" "hardening.sh" "linux"))))) =
  file_at "./config.yaml" (fs (boot Sample.disk)).
Proof.
  assert (H : locate (fs (boot Sample.disk)) "./config.yaml" <>
              locate (fs (boot Sample.disk)) "hardening.sh")
    by (vm_compute; discriminate).
  split; [exact H|].
  exact (run_touches_only_output
           MiniJinja.template Sample.safe_load Sample.compile MiniJinja.render
           Sample.encodable Sample.library_str (boot Sample.disk)
           (Sample.make "CIS" "config.yaml" "hardening.sh" "linux") "./config.yaml" H).
Defined.



Lemma missing_template_run_witness :
  (readable_as "demo.yaml" (fs (boot Sample.disk)) = Some "name: demo" /\
   Sample.safe_load "name: demo" = inr (PyDict [(PyStr "name", PyStr "demo")]) /\
   isinstance_dict (PyDict [(PyStr "name", PyStr "demo")]) = true /\
   loader_finds (template_path "linux" "nothere") (fs (boot Sample.disk)) = false) /\
  fst (Sample.main "nothere" "demo.yaml" "hardening.sh" "linux" (boot Sample.disk)) = 1%Z.
Proof.
  assert (H1 : readable_as "demo.yaml" (fs (boot Sample.disk)) = Some "name: demo")
    by (vm_compute; reflexivity).
  assert (H2 : Sample.safe_load "name: demo" =
               inr (PyDict [(PyStr "name", PyStr "demo")]))
    by (vm_compute; reflexivity).
  assert (H3 : isinstance_dict (PyDict [(PyStr "name", PyStr "demo")]) = true)
    by reflexivity.
  assert (H4 : loader_finds (template_path "linux" "nothere") (fs (boot Sample.disk)) =
               false) by (vm_compute; reflexivity).
  split; [repeat split; assumption|].
  exact (proj1 (missing_template_run
                  MiniJinja.template Sample.safe_load Sample.compile MiniJinja.render
                  Sample.encodable Sample.library_str
                  "nothere" "demo.yaml" "hardening.sh" "linux"
                  (boot Sample.disk) _ _ H1 H2 H3 H4)).
Defined.

Lemma validate_config_silent_with_policies_witness :
  config (with_config (PyDict [(PyStr "policies", PyInt 5)])
            (Sample.make "CIS" "config.yaml" "hardening.sh" "linux")) =
    PyDict ([] ++ (PyStr "policies", PyInt 5) :: []) /\
  fst (validate_config MiniJinja.template
         (boot Sample.disk,
          with_config (PyDict [(PyStr "policies", PyInt 5)])
            (Sample.make "CIS" "config.yaml" "hardening.sh" "linux"))) = inr tt.
Proof.
  assert (H : config (with_config (PyDict [(PyStr "policies", PyInt 5)])
                        (Sample.make "CIS" "config.yaml" "hardening.sh" "linux")) =
              PyDict ([] ++ (PyStr "policies", PyInt 5) :: [])) by reflexivity.
  split; [exact H|].
  exact (proj1 (validate_config_silent_with_policies
                  MiniJinja.template (boot Sample.disk)
                  (with_config (PyDict [(PyStr "policies", PyInt 5)])
                     (Sample.make "CIS" "config.yaml" "hardening.sh" "linux"))
                  [] [] (PyInt 5) H)).
Defined.

Lemma main_succeeds_iff_witness :
  fst (Sample.main "CIS" "config.yaml" "hardening.sh" "linux" (boot Sample.disk)) = 0%Z /\
  exists text v src t rendered,
    readable_as "config.yaml" (fs (boot Sample.disk)) = Some text /\
    Sample.safe_load text = inr v /\
    isinstance_dict v = true /\
    loader_reads (template_path "linux" "CIS") (fs (boot Sample.disk)) = Some src /\
    Sample.compile src = inr t /\
    MiniJinja.render t v = inr rendered /\
    writable "hardening.sh" (fs (boot Sample.disk)) = true /\
    Sample.encodable rendered = true /\
    file_content "hardening.sh"
      (fs (snd (Sample.main "CIS" "config.yaml" "hardening.sh" "linux"
                  (boot Sample.disk)))) = Some rendered.
Proof.
  assert (H : fst (Sample.main "CIS" "config.yaml" "hardening.sh" "linux"
                     (boot Sample.disk)) = 0%Z) by (vm_compute; reflexivity).
  split; [exact H|].
  exact (proj1 (main_succeeds_iff
                  MiniJinja.template Sample.safe_load Sample.compile MiniJinja.render
                  Sample.encodable Sample.library_str
                  "CIS" "config.yaml" "hardening.sh" "linux"
                  (boot Sample.disk)) H).
Defined.
